(** * influxdb-collectd-proxy: the sample processor and the batching loop

    A shallow embedding of [proxy.go].  The proxy receives decoded collectd
    packets, turns every value of a packet into an InfluxDB series holding one
    point, optionally normalises COUNTER and DERIVE values against the last
    observation kept in [beforeCache], and hands the accumulated series to
    a writer goroutine once a second or every fifty series.

    Modelling choices:
    - Go strings are [string] (sequences of bytes);
    - [int64] is [Z] with the wrap-around written out ([wrap64]);
    - [float64] is the kernel's binary64 type [float], so that the
      arithmetic of the source ([-], [/], [math.IsNaN], [float64(int64)])
      is IEEE 754 arithmetic and can be evaluated;
    - Go maps are [gmap]s; a slice read out of range panics, which is the
      [Panic] case of [result];
    - the global [beforeCache] is threaded explicitly;
    - the clock read by [time.Now] and [time.Since] is an input of a loop
      step, and [go backendWriter(...)] is recorded as a spawned writer;
    - log output is not part of the state. *)

From Stdlib Require Import ZArith Ascii String.
From Stdlib Require Import Floats.PrimFloat Floats.SpecFloat Floats.FloatOps.
From stdpp Require Import base option list strings gmap.

Open Scope Z_scope.

(** ** Results of code that may panic *)

Inductive result (A : Type) : Type :=
| Ok (a : A)
| Panic (msg : string).
Arguments Ok {A} a.
Arguments Panic {A} msg.

#[global] Instance result_ret : MRet result := fun A a => Ok a.
#[global] Instance result_bind : MBind result := fun A B f m =>
  match m with
  | Ok a => f a
  | Panic msg => Panic msg
  end.

Definition is_Ok {A} (r : result A) : Prop :=
  match r with
  | Ok _ => True
  | Panic _ => False
  end.

(** [l[i]] on a Go slice: a run-time panic when [i] is out of range. *)
Definition index {A} (l : list A) (i : nat) : result A :=
  match l !! i with
  | Some x => Ok x
  | None => Panic "index out of range"
  end.

(** ** Machine integers and floats *)

Definition wrap64 (z : Z) : Z := (z + 2 ^ 63) mod 2 ^ 64 - 2 ^ 63.
Definition sub64 (a b : Z) : Z := wrap64 (a - b).
(** Go's [/] on integers truncates towards zero. *)
Definition div64 (a b : Z) : Z := wrap64 (Z.quot a b).

Definition in_int64 (z : Z) : Prop := - 2 ^ 63 <= z < 2 ^ 63.

(** The conversion [float64(x)] of an [int64]: round to nearest, ties to even. *)
Definition float64_of_int64 (z : Z) : float :=
  SF2Prim (binary_normalize prec emax z 0 false).

(** [math.IsNaN(f)] is [f != f]. *)
Definition IsNaN (f : float) : bool := negb (PrimFloat.eqb f f).

(** ** [strings.Replace(s, old, new, -1)] for a non-empty [old]

    Scanning from the left, every occurrence of [old] that does not overlap
    an earlier one is replaced by [new]; [skip] counts the bytes of an
    occurrence that are still to be dropped. *)

Fixpoint ReplaceFrom (skip : nat) (s old new : string) : string :=
  match s with
  | EmptyString => EmptyString
  | String c rest =>
      match skip with
      | S k => ReplaceFrom k rest old new
      | O =>
          if String.prefix old (String c rest)
          then new +:+ ReplaceFrom (String.length old - 1) rest old new
          else String c (ReplaceFrom 0 rest old new)
      end
  end.

Definition Replace (s old new : string) : string := ReplaceFrom 0 s old new.

(** ** The collaborators: collectd packets and InfluxDB series *)

Module collectd.

(** Data-source kinds of the collectd wire format, bytes in [DataTypes]. *)
Definition TypeCounter : Z := 0.
Definition TypeGauge : Z := 1.
Definition TypeDerive : Z := 2.
Definition TypeAbsolute : Z := 3.

(** A decoded packet.  The fields are what [processPacket] reads: the
    string fields and [DataTypes] as they are in the decoder's struct,
    [ValueNames] and [ValueNumbers] for the results of the methods of these
    names (each number already through [Float64()]), and [UnixNano] for
    [packet.Time().UnixNano()]. *)
Record Packet : Type := {
  Hostname : string;
  Plugin : string;
  PluginInstance : string;
  Type_ : string;
  TypeInstance : string;
  DataTypes : list Z;
  ValueNames : list string;
  ValueNumbers : list float;
  UnixNano : Z
}.

End collectd.

Module influxdb.

(** The dynamically typed cells of a point, [interface{}] in the source. *)
Inductive Cell : Type :=
| Int64 (z : Z)
| Float64 (f : float)
| Str (s : string).

Record Series : Type := {
  Name : string;
  Columns : list string;
  Points : list (list Cell)
}.

End influxdb.

(** ** Constants and global state of the proxy *)

(** [time.Second], in nanoseconds. *)
Definition influxWriteInterval : Z := 1000000000.
Definition influxWriteLimit : nat := 50.

(** point cache to perform data normalization for COUNTER and DERIVE types *)
Record CacheEntry : Type := {
  Timestamp : Z;
  Value : float
}.

(** The flag [-normalize] is documented as:
    true if you need to normalize data for COUNTER and DERIVE types (over time). *)

(** The test of line 181, [*normalize && dataType == TypeCounter || dataType == TypeDerive].
    In Go [&&] binds tighter than [||]. *)
Definition normalizationPath (normalize : bool) (dataType : Z) : bool :=
  (normalize && (dataType =? collectd.TypeCounter)) || (dataType =? collectd.TypeDerive).

(** Lines 182-192: the value to send and whether to send it. *)
Definition normalizeValue (before : option CacheEntry) (timestamp : Z) (value : float)
  : bool * float :=
  match before with
  | Some before =>
      if negb (IsNaN (Value before)) then
        (* normalize over time *)
        if 0 <? sub64 timestamp (Timestamp before) then
          (true,
           PrimFloat.div (PrimFloat.sub value (Value before))
             (float64_of_int64 (div64 (sub64 timestamp (Timestamp before)) 1000)))
        else
          (true, PrimFloat.sub value (Value before))
      else
        (* skip current data if there's no initial entry *)
        (false, value)
  | None => (false, value)
  end.

Definition pluginNameOf (packet : collectd.Packet) : string :=
  if negb (collectd.PluginInstance packet =? "")%string
  then collectd.Plugin packet +:+ "-" +:+ collectd.PluginInstance packet
  else collectd.Plugin packet.

(** Lines 164-169; [t] is [None] for the nil slice that a map lookup of an
    absent type name gives. *)
Definition typeNameOf (packet : collectd.Packet) (t : option (list string)) (i : nat)
  : result string :=
  if negb (collectd.TypeInstance packet =? "")%string
  then Ok (collectd.Type_ packet +:+ "-" +:+ collectd.TypeInstance packet)
  else
    match t with
    | Some names => ti ← index names i; Ok (collectd.Type_ packet +:+ "-" +:+ ti)
    | None => Ok (collectd.Type_ packet)
    end.

Definition mkSeries (name : string) (timestamp : Z) (normalizedValue : float)
    (hostName : string) : influxdb.Series :=
  {| influxdb.Name := name;
     influxdb.Columns := ["time"; "value"; "host"]%string;
     influxdb.Points :=
       [[influxdb.Int64 timestamp; influxdb.Float64 normalizedValue; influxdb.Str hostName]] |}.

(** ** [processPacket]

    [types] is the table read by [ParseTypesDB] at start-up, a parameter
    here: type name to the names of its data sources. *)

Section Processor.

Variable normalize : bool.
Variable types : gmap string (list string).

(** The body of the loop of [processPacket] for the index [i]: the series
    appended in this round, if any, and the cache after it. *)
Definition processValue (packet : collectd.Packet) (i : nat)
    (beforeCache : gmap string CacheEntry)
  : result (option influxdb.Series * gmap string CacheEntry) :=
  let values := collectd.ValueNumbers packet in
  (* get a type for this packet *)
  let t := types !! collectd.Type_ packet in
  (* pass the unknowns *)
  if bool_decide (t = None) && (collectd.TypeInstance packet =? "")%string then
    Ok (None, beforeCache)
  else
    (* as hostname contains commas, let's replace them *)
    let hostName := Replace (collectd.Hostname packet) "." "_" in
    let pluginName := pluginNameOf packet in
    typeName ← typeNameOf packet t i;
    let cacheKey := hostName +:+ "." +:+ pluginName +:+ "." +:+ typeName in
    let name := pluginName +:+ "." +:+ typeName in
    let timestamp := div64 (collectd.UnixNano packet) 1000000 in
    value ← index values i;
    dataType ← index (collectd.DataTypes packet) i;
    if normalizationPath normalize dataType then
      let '(readyToSend, normalizedValue) :=
        normalizeValue (beforeCache !! cacheKey) timestamp value in
      let entry := {| Timestamp := timestamp; Value := value |} in
      Ok (if readyToSend then Some (mkSeries name timestamp normalizedValue hostName)
          else None,
          <[cacheKey := entry]> beforeCache)
    else
      Ok (Some (mkSeries name timestamp value hostName), beforeCache).

(** The loop over the indices of [packet.ValueNames()]. *)
Fixpoint processLoop (packet : collectd.Packet) (indices : list nat)
    (seriesGroup : list influxdb.Series) (beforeCache : gmap string CacheEntry)
  : result (list influxdb.Series * gmap string CacheEntry) :=
  match indices with
  | [] => Ok (seriesGroup, beforeCache)
  | i :: rest =>
      match processValue packet i beforeCache with
      | Ok (series, beforeCache') =>
          processLoop packet rest (seriesGroup ++ option_list series) beforeCache'
      | Panic msg => Panic msg
      end
  end.

Definition processPacket (packet : collectd.Packet) (beforeCache : gmap string CacheEntry)
  : result (list influxdb.Series * gmap string CacheEntry) :=
  processLoop packet (seq 0 (length (collectd.ValueNames packet))) [] beforeCache.

(** ** The ingestion loop of [main] *)

Record LoopState : Type := {
  timer : Z;
  seriesGroup : list influxdb.Series;
  cache : gmap string CacheEntry;
  (* the batches given to [go backendWriter(...)], oldest first *)
  writers : list (list influxdb.Series)
}.

(** One packet taken from the channel, with the two readings of the
    clock that the iteration may make: the one inside [time.Since(timer)]
    and the one of [timer = time.Now()]. *)
Record Arrival : Type := {
  packet : collectd.Packet;
  clockSince : Z;
  clockNow : Z
}.

Definition mainStep (st : LoopState) (a : Arrival) : result LoopState :=
  '(series, cache') ← processPacket (packet a) (cache st);
  let seriesGroup := seriesGroup st ++ series in
  if (clockSince a - timer st <? influxWriteInterval)
     && (length seriesGroup <? influxWriteLimit)%nat
  then
    Ok {| timer := timer st; seriesGroup := seriesGroup; cache := cache';
          writers := writers st |}
  else if (0 <? length seriesGroup)%nat then
    Ok {| timer := clockNow a; seriesGroup := []; cache := cache';
          writers := writers st ++ [seriesGroup] |}
  else
    Ok {| timer := clockNow a; seriesGroup := seriesGroup; cache := cache';
          writers := writers st |}.

Fixpoint mainLoop (st : LoopState) (channel : list Arrival) : result LoopState :=
  match channel with
  | [] => Ok st
  | a :: rest =>
      match mainStep st a with
      | Ok st' => mainLoop st' rest
      | Panic msg => Panic msg
      end
  end.

End Processor.

(** The series key and the series name of lines 171-172. *)
Definition hostNameOf (packet : collectd.Packet) : string :=
  Replace (collectd.Hostname packet) "." "_".

Definition cacheKeyOf (packet : collectd.Packet) (typeName : string) : string :=
  hostNameOf packet +:+ "." +:+ pluginNameOf packet +:+ "." +:+ typeName.

Definition nameOf (packet : collectd.Packet) (typeName : string) : string :=
  pluginNameOf packet +:+ "." +:+ typeName.

Definition timestampOf (packet : collectd.Packet) : Z :=
  div64 (collectd.UnixNano packet) 1000000.

(** The guard of line 149. *)
Definition unknownShape (types : gmap string (list string)) (packet : collectd.Packet) : bool :=
  bool_decide (types !! collectd.Type_ packet = None)
  && (collectd.TypeInstance packet =? "")%string.

(** The result of a round that reaches the normalisation test. *)
Definition roundResult (normalize : bool) (packet : collectd.Packet)
    (beforeCache : gmap string CacheEntry) (typeName : string) (value : float) (dataType : Z)
  : option influxdb.Series * gmap string CacheEntry :=
  if normalizationPath normalize dataType then
    let r := normalizeValue (beforeCache !! cacheKeyOf packet typeName)
               (timestampOf packet) value in
    (if r.1
     then Some (mkSeries (nameOf packet typeName) (timestampOf packet) r.2 (hostNameOf packet))
     else None,
     <[cacheKeyOf packet typeName :=
         {| Timestamp := timestampOf packet; Value := value |}]> beforeCache)
  else
    (Some (mkSeries (nameOf packet typeName) (timestampOf packet) value (hostNameOf packet)),
     beforeCache).

(** ** What the specification says, in its own words *)

(** Every "." of the host name replaced by "_". *)
Fixpoint dotsToUnderscores (s : string) : string :=
  match s with
  | EmptyString => EmptyString
  | String c rest =>
      String (if Ascii.eqb c "."%char then "_"%char else c) (dotsToUnderscores rest)
  end.

(** The type-instance label: the explicit type-instance if present,
    otherwise the i-th declared data-source name of a known type. *)
Definition specLabel (types : gmap string (list string)) (packet : collectd.Packet)
    (i : nat) : option string :=
  if decide (collectd.TypeInstance packet = ""%string)
  then t ← types !! collectd.Type_ packet; t !! i
  else Some (collectd.TypeInstance packet).

(** plugin(+instance).type(+label) *)
Definition specSeriesName (packet : collectd.Packet) (label : string) : string :=
  (if decide (collectd.PluginInstance packet = ""%string)
   then collectd.Plugin packet
   else collectd.Plugin packet +:+ "-" +:+ collectd.PluginInstance packet)
  +:+ "." +:+ collectd.Type_ packet +:+ "-" +:+ label.

(** The per-second rate of section 4.2: [(currentRaw - priorRaw) / (Δt / 1000)]
    with [Δt] in milliseconds. *)
Definition specRate (currentRaw priorRaw : float) (dt : Z) : float :=
  PrimFloat.div (PrimFloat.sub currentRaw priorRaw)
    (PrimFloat.div (float64_of_int64 dt) 1000%float).

(** The labels of a packet never run past the declared data sources. *)
Definition labelsInRange (types : gmap string (list string)) (packet : collectd.Packet)
  : Prop :=
  collectd.TypeInstance packet = ""%string →
  ∀ t, types !! collectd.Type_ packet = Some t →
       (length (collectd.ValueNames packet) <= length t)%nat.

(** The decoder gives one name, one number and one kind per value. *)
Definition wellFormed (packet : collectd.Packet) : Prop :=
  length (collectd.ValueNumbers packet) = length (collectd.ValueNames packet)
  ∧ length (collectd.DataTypes packet) = length (collectd.ValueNames packet).

(** ** Sample data *)

Definition typesdb : gmap string (list string) :=
  {[ "cpu"%string := ["value"%string] ]}.

(** One value of kind [dataType] for the series [cpu-0.cpu-value] of the
    host [web.example.org], read at [nanos] nanoseconds. *)
Definition sample (dataType : Z) (value : float) (nanos : Z) : collectd.Packet :=
  {| collectd.Hostname := "web.example.org";
     collectd.Plugin := "cpu";
     collectd.PluginInstance := "0";
     collectd.Type_ := "cpu";
     collectd.TypeInstance := "";
     collectd.DataTypes := [dataType];
     collectd.ValueNames := ["value"%string];
     collectd.ValueNumbers := [value];
     collectd.UnixNano := nanos |}.

Definition sampleKey : string := "web_example_org.cpu-0.cpu-value".

Definition samplePoint (timestamp : Z) (value : float) : influxdb.Series :=
  mkSeries "cpu-0.cpu-value" timestamp value "web_example_org".

(** The loop before the first packet, its timer set at time 0. *)
Definition initialState : LoopState :=
  {| timer := 0; seriesGroup := []; cache := ∅; writers := [] |}.

(** A packet taken from the channel at [clock] nanoseconds. *)
Definition arrival (p : collectd.Packet) (clock : Z) : Arrival :=
  {| packet := p; clockSince := clock; clockNow := clock |}.

(** [n] GAUGE packets that all arrive 200 ms after the start. *)
Definition burst (n : nat) : list Arrival :=
  replicate n (arrival (sample collectd.TypeGauge 42.5 0) 200000000).

(** ** Further notions used to state properties of the code *)

(** The raw series of line 201 for the value [value] under the type name
    [typeName]. *)
Definition rawSeries (packet : collectd.Packet) (typeName : string) (value : float)
  : influxdb.Series :=
  mkSeries (nameOf packet typeName) (timestampOf packet) value (hostNameOf packet).

(** Every timestamp kept in the cache is a number of milliseconds that
    came from an [int64] of nanoseconds. *)
Definition cacheBounded (beforeCache : gmap string CacheEntry) : Prop :=
  ∀ k e, beforeCache !! k = Some e → - 2 ^ 44 < Timestamp e < 2 ^ 44.

(** The packet [packet] as another host would have sent it. *)
Definition withHostname (h : string) (packet : collectd.Packet) : collectd.Packet :=
  {| collectd.Hostname := h;
     collectd.Plugin := collectd.Plugin packet;
     collectd.PluginInstance := collectd.PluginInstance packet;
     collectd.Type_ := collectd.Type_ packet;
     collectd.TypeInstance := collectd.TypeInstance packet;
     collectd.DataTypes := collectd.DataTypes packet;
     collectd.ValueNames := collectd.ValueNames packet;
     collectd.ValueNumbers := collectd.ValueNumbers packet;
     collectd.UnixNano := collectd.UnixNano packet |}.

(** The packets of a channel processed one after the other, as the loop of
    [main] does, leaving the batching aside: all the series produced, in
    order, and the cache at the end. *)
Fixpoint processAll (normalize : bool) (types : gmap string (list string))
    (packets : list collectd.Packet) (produced : list influxdb.Series)
    (beforeCache : gmap string CacheEntry)
  : result (list influxdb.Series * gmap string CacheEntry) :=
  match packets with
  | [] => Ok (produced, beforeCache)
  | p :: rest =>
      match processPacket normalize types p beforeCache with
      | Ok (series, beforeCache') =>
          processAll normalize types rest (produced ++ series) beforeCache'
      | Panic msg => Panic msg
      end
  end.

(** A packet of two values that carries its own type-instance, as an
    interface reports received and sent octets. *)
Definition octets (dataType : Z) (rx tx : float) (nanos : Z) : collectd.Packet :=
  {| collectd.Hostname := "web.example.org";
     collectd.Plugin := "interface";
     collectd.PluginInstance := "";
     collectd.Type_ := "if_octets";
     collectd.TypeInstance := "eth0";
     collectd.DataTypes := [dataType; dataType];
     collectd.ValueNames := ["rx"; "tx"]%string;
     collectd.ValueNumbers := [rx; tx];
     collectd.UnixNano := nanos |}.

(** ** Machine arithmetic *)

Lemma wrap64_in_range z : in_int64 z → wrap64 z = z.
Proof.
  unfold in_int64, wrap64. intros Hz.
  rewrite Z.mod_small by lia. lia.
Qed.

Lemma wrap64_range z : in_int64 (wrap64 z).
Proof.
  unfold in_int64, wrap64.
  pose proof (Z.mod_pos_bound (z + 2 ^ 63) (2 ^ 64) ltac:(lia)). lia.
Qed.

Lemma quot_millis_bound n : in_int64 n → - 2 ^ 44 < n ÷ 1000000 < 2 ^ 44.
Proof.
  unfold in_int64. intros Hn. split.
  - apply Z.lt_le_trans with (m := (- 2 ^ 63) ÷ 1000000); [by vm_compute|].
    apply Z.quot_le_mono; lia.
  - apply Z.le_lt_trans with (m := (2 ^ 63) ÷ 1000000); [|by vm_compute].
    apply Z.quot_le_mono; lia.
Qed.

Lemma div64_millis n : in_int64 n → div64 n 1000000 = n ÷ 1000000.
Proof.
  intros Hn. unfold div64. apply wrap64_in_range.
  pose proof (quot_millis_bound n Hn) as Hb. unfold in_int64.
  change (2 ^ 63) with 9223372036854775808.
  change (2 ^ 44) with 17592186044416 in Hb. lia.
Qed.

(** Timestamps are nanoseconds divided by a million, so their difference
    is far from the ends of [int64]: [sub64] is the difference. *)
Lemma sub64_timestamps n1 n2 :
  in_int64 n1 → in_int64 n2 →
  sub64 (div64 n1 1000000) (div64 n2 1000000) = div64 n1 1000000 - div64 n2 1000000.
Proof.
  intros H1 H2. rewrite !div64_millis by done.
  unfold sub64. apply wrap64_in_range.
  pose proof (quot_millis_bound n1 H1) as Hb1.
  pose proof (quot_millis_bound n2 H2) as Hb2.
  unfold in_int64.
  change (2 ^ 63) with 9223372036854775808.
  change (2 ^ 44) with 17592186044416 in *. lia.
Qed.

(** ** The host-name replacement *)

Lemma Replace_dots s : Replace s "." "_" = dotsToUnderscores s.
Proof.
  unfold Replace. induction s as [|c s IH]; [done|].
  cbn [ReplaceFrom dotsToUnderscores String.prefix String.length Nat.sub].
  destruct (ascii_dec "." c) as [<-|Hne].
  - cbn. destruct s; by rewrite IH.
  - rewrite IH. destruct (Ascii.eqb_spec c "."); [congruence|done].
Qed.

Lemma dotsToUnderscores_length s :
  String.length (dotsToUnderscores s) = String.length s.
Proof. induction s as [|c s IH]; cbn; congruence. Qed.

Lemma dotsToUnderscores_get s n :
  String.get n (dotsToUnderscores s)
  = (λ c, if Ascii.eqb c "."%char then "_"%char else c) <$> String.get n s.
Proof.
  revert n. induction s as [|c s IH]; intros n; [done|].
  destruct n as [|n]; cbn; [done|]. apply IH.
Qed.

Lemma dotsToUnderscores_no_dot s n : String.get n (dotsToUnderscores s) ≠ Some "."%char.
Proof.
  rewrite dotsToUnderscores_get.
  destruct (String.get n s) as [c|]; cbn; [|done].
  destruct (Ascii.eqb_spec c "."); [done|congruence].
Qed.

(** ** One round of the loop of [processPacket] *)

Section ProcessorFacts.

Variable normalize : bool.
Variable types : gmap string (list string).

Implicit Types (packet : collectd.Packet) (beforeCache : gmap string CacheEntry).

Lemma index_Ok {A} (l : list A) i x : index l i = Ok x ↔ l !! i = Some x.
Proof. unfold index. destruct (l !! i); split; congruence. Qed.

Lemma index_is_Ok {A} (l : list A) i : is_Ok (index l i) ↔ (i < length l)%nat.
Proof.
  unfold index. destruct (l !! i) eqn:E; cbn.
  - apply lookup_lt_Some in E. tauto.
  - apply lookup_ge_None in E. split; [tauto|lia].
Qed.

Lemma normalizationPath_spec dataType :
  normalizationPath normalize dataType = true
  ↔ (normalize = true ∧ dataType = collectd.TypeCounter) ∨ dataType = collectd.TypeDerive.
Proof.
  unfold normalizationPath.
  rewrite orb_true_iff, andb_true_iff, !Z.eqb_eq. tauto.
Qed.

Lemma processValue_skip packet i beforeCache :
  unknownShape types packet = true →
  processValue normalize types packet i beforeCache = Ok (None, beforeCache).
Proof. unfold processValue, unknownShape. by intros ->. Qed.

Lemma processValue_run packet i beforeCache typeName value dataType :
  unknownShape types packet = false →
  typeNameOf packet (types !! collectd.Type_ packet) i = Ok typeName →
  collectd.ValueNumbers packet !! i = Some value →
  collectd.DataTypes packet !! i = Some dataType →
  processValue normalize types packet i beforeCache
  = Ok (roundResult normalize packet beforeCache typeName value dataType).
Proof.
  unfold processValue, unknownShape, roundResult. intros -> -> Hv Hd.
  apply index_Ok in Hv, Hd. cbn. rewrite Hv. cbn. rewrite Hd. cbn.
  fold (hostNameOf packet) (timestampOf packet).
  fold (nameOf packet typeName) (cacheKeyOf packet typeName).
  destruct (normalizationPath normalize dataType); [|done].
  by destruct (normalizeValue _ _ _) as [[] ?].
Qed.

Lemma processValue_inv packet i beforeCache r :
  processValue normalize types packet i beforeCache = Ok r →
  (unknownShape types packet = true ∧ r = (None, beforeCache))
  ∨ ∃ typeName value dataType,
      unknownShape types packet = false
      ∧ typeNameOf packet (types !! collectd.Type_ packet) i = Ok typeName
      ∧ collectd.ValueNumbers packet !! i = Some value
      ∧ collectd.DataTypes packet !! i = Some dataType
      ∧ r = roundResult normalize packet beforeCache typeName value dataType.
Proof.
  intros H. destruct (unknownShape types packet) eqn:Hu.
  - left. rewrite processValue_skip in H by done. split; congruence.
  - right.
    destruct (typeNameOf packet (types !! collectd.Type_ packet) i) as [typeName|] eqn:Ht;
      [|by unfold processValue, unknownShape in *; rewrite Hu, Ht in H].
    destruct (collectd.ValueNumbers packet !! i) as [value|] eqn:Hv;
      [|unfold processValue, unknownShape, index in *; by rewrite Hu, Ht, Hv in H].
    destruct (collectd.DataTypes packet !! i) as [dataType|] eqn:Hd;
      [|unfold processValue, unknownShape, index in *; cbn in H; by rewrite Hu, Ht, Hv, Hd in H].
    exists typeName, value, dataType.
    rewrite (processValue_run _ _ _ typeName value dataType) in H by done.
    repeat split; congruence.
Qed.

(** A round is a panic exactly when one of its three slice reads is. *)
Lemma processValue_is_Ok packet i beforeCache :
  is_Ok (processValue normalize types packet i beforeCache)
  ↔ unknownShape types packet = true
    ∨ (is_Ok (typeNameOf packet (types !! collectd.Type_ packet) i)
       ∧ (i < length (collectd.ValueNumbers packet))%nat
       ∧ (i < length (collectd.DataTypes packet))%nat).
Proof.
  split.
  - destruct (processValue _ _ _ _ _) as [r|] eqn:H; [intros _|done].
    apply processValue_inv in H as [[? _]|(tn & v & d & _ & Ht & Hv & Hd & _)]; [by left|].
    right. rewrite Ht. apply lookup_lt_Some in Hv, Hd. done.
  - intros [Hu|(Ht & Hv & Hd)].
    + by rewrite processValue_skip.
    + destruct (unknownShape types packet) eqn:Hu; [by rewrite processValue_skip|].
      destruct (typeNameOf _ _ _) as [tn|] eqn:E; [|done].
      apply lookup_lt_is_Some in Hv as [v Hv], Hd as [d Hd].
      by rewrite (processValue_run _ _ _ tn v d).
Qed.

(** ** The loop of [processPacket]: an invariant rule *)

Lemma processLoop_invariant packet
    (R : list influxdb.Series → gmap string CacheEntry → Prop) indices :
  (∀ i acc c o c',
      i ∈ indices → R acc c →
      processValue normalize types packet i c = Ok (o, c') →
      R (acc ++ option_list o) c') →
  ∀ acc c out c',
    R acc c →
    processLoop normalize types packet indices acc c = Ok (out, c') →
    R out c'.
Proof.
  induction indices as [|i rest IH]; intros Hstep acc c out c' HR Hrun; cbn in Hrun.
  - by simplify_eq.
  - destruct (processValue normalize types packet i c) as [[o c1]|] eqn:Hi; [|done].
    eapply IH; [| |exact Hrun].
    + intros j acc' c2 o' c3 Hj. apply Hstep. by right.
    + eapply Hstep; [by left|exact HR|exact Hi].
Qed.

Lemma processLoop_is_Ok packet indices acc c :
  is_Ok (processLoop normalize types packet indices acc c)
  ↔ ∀ i, i ∈ indices →
         unknownShape types packet = true
         ∨ (is_Ok (typeNameOf packet (types !! collectd.Type_ packet) i)
            ∧ (i < length (collectd.ValueNumbers packet))%nat
            ∧ (i < length (collectd.DataTypes packet))%nat).
Proof.
  revert acc c. induction indices as [|i rest IH]; intros acc c; cbn.
  - split; [|done]. intros _ i Hi. by apply elem_of_nil in Hi.
  - pose proof (processValue_is_Ok packet i c) as Hone.
    destruct (processValue normalize types packet i c) as [[o c1]|] eqn:Hi.
    + rewrite IH. split.
      * intros Hrest j [->|Hj]%elem_of_cons; [by apply Hone|by apply Hrest].
      * intros Hall j Hj. apply Hall. by right.
    + split; [done|]. intros Hall. apply Hone, Hall. by left.
Qed.

End ProcessorFacts.

(** ** C1: when the normalisation path is taken *)

(** Off the path the raw value is sent and the cache is left alone. *)
Lemma raw_point_off_path normalize types packet i beforeCache typeName value dataType :
  normalizationPath normalize dataType = false →
  unknownShape types packet = false →
  typeNameOf packet (types !! collectd.Type_ packet) i = Ok typeName →
  collectd.ValueNumbers packet !! i = Some value →
  collectd.DataTypes packet !! i = Some dataType →
  processValue normalize types packet i beforeCache
  = Ok (Some (mkSeries (nameOf packet typeName) (timestampOf packet) value
                (hostNameOf packet)),
        beforeCache).
Proof.
  intros Hp Hu Ht Hv Hd.
  rewrite (processValue_run _ _ _ _ _ typeName value dataType) by done.
  unfold roundResult. by rewrite Hp.
Qed.

(** GAUGE and ABSOLUTE values are never on the path; COUNTER values are
    on it exactly when the flag is set; DERIVE values always are. *)
Lemma normalizationPath_kinds normalize :
  normalizationPath normalize collectd.TypeGauge = false
  ∧ normalizationPath normalize collectd.TypeAbsolute = false
  ∧ normalizationPath normalize collectd.TypeCounter = normalize
  ∧ normalizationPath normalize collectd.TypeDerive = true.
Proof. by destruct normalize. Qed.

(** C1 (the code departs from the claim): with normalisation disabled, a
    DERIVE value still takes the normalisation path.  The first observation
    of the series sends nothing and is stored in the cache, and the second
    one sends the difference to it instead of the raw value 300. *)
Theorem C1_derive_normalized_when_disabled :
  processPacket false typesdb (sample collectd.TypeDerive 250 0) ∅
  = Ok ([], {[ sampleKey := {| Timestamp := 0; Value := 250 |} ]})
  ∧ processPacket false typesdb (sample collectd.TypeDerive 300 0)
      {[ sampleKey := {| Timestamp := 0; Value := 250 |} ]}
    = Ok ([samplePoint 0 50], {[ sampleKey := {| Timestamp := 0; Value := 300 |} ]}).
Proof. split; vm_compute; reflexivity. Qed.

(** ** C2: the rate over a positive elapsed time *)

(** What line 185 computes: the difference over the whole seconds elapsed. *)
Lemma rate_as_computed before timestamp value :
  IsNaN (Value before) = false →
  0 < sub64 timestamp (Timestamp before) →
  normalizeValue (Some before) timestamp value
  = (true,
     PrimFloat.div (PrimFloat.sub value (Value before))
       (float64_of_int64 (div64 (sub64 timestamp (Timestamp before)) 1000))).
Proof.
  intros Hn Hdt. unfold normalizeValue. rewrite Hn. cbn.
  by apply Z.ltb_lt in Hdt as ->.
Qed.

(** C2 (the code departs from the claim): the elapsed milliseconds are
    divided by 1000 as integers before the conversion to a float.  After
    1500 ms a counter that went from 100 to 250 is sent as 150 where the
    rate per second is 100, and after 500 ms the divisor is zero and the
    point carries infinity where the rate is 300. *)
Theorem C2_rate_divides_by_whole_seconds :
  processPacket true typesdb (sample collectd.TypeCounter 250 1500000000)
    {[ sampleKey := {| Timestamp := 0; Value := 100 |} ]}
  = Ok ([samplePoint 1500 150], {[ sampleKey := {| Timestamp := 1500; Value := 250 |} ]})
  ∧ specRate 250 100 1500 = 100%float
  ∧ processPacket true typesdb (sample collectd.TypeCounter 250 500000000)
      {[ sampleKey := {| Timestamp := 0; Value := 100 |} ]}
    = Ok ([samplePoint 500 infinity], {[ sampleKey := {| Timestamp := 500; Value := 250 |} ]})
  ∧ specRate 250 100 500 = 300%float.
Proof. repeat split; vm_compute; reflexivity. Qed.

(** ** C3: the first observation of a series *)

(** C3: on the normalisation path of section 4.2, step 4 (normalisation
    enabled, kind COUNTER or DERIVE), the first observation of a
    COUNTER or DERIVE series (no cache entry under its key, or one whose
    value is not a number) produces no point, and its timestamp and raw
    value become the cache entry of the series. *)
Theorem C3_first_observation types packet i beforeCache typeName value dataType :
  dataType = collectd.TypeCounter ∨ dataType = collectd.TypeDerive →
  unknownShape types packet = false →
  typeNameOf packet (types !! collectd.Type_ packet) i = Ok typeName →
  collectd.ValueNumbers packet !! i = Some value →
  collectd.DataTypes packet !! i = Some dataType →
  (beforeCache !! cacheKeyOf packet typeName = None
   ∨ ∃ before, beforeCache !! cacheKeyOf packet typeName = Some before
               ∧ IsNaN (Value before) = true) →
  processValue true types packet i beforeCache
  = Ok (None,
        <[cacheKeyOf packet typeName :=
            {| Timestamp := timestampOf packet; Value := value |}]> beforeCache).
Proof.
  intros Hk Hu Ht Hv Hd Hfirst.
  rewrite (processValue_run _ _ _ _ _ typeName value dataType) by done.
  unfold roundResult.
  assert (normalizationPath true dataType = true) as ->.
  { apply normalizationPath_spec. tauto. }
  by destruct Hfirst as [->|(before & -> & Hnan)]; cbn; [|rewrite Hnan].
Qed.

Lemma C3_first_observation_witness :
  processValue true typesdb (sample collectd.TypeDerive 100 0) 0 ∅
  = Ok (None, <[sampleKey := {| Timestamp := 0; Value := 100 |}]> ∅).
Proof.
  apply (C3_first_observation typesdb (sample collectd.TypeDerive 100 0) 0 ∅
           "cpu-value" 100 collectd.TypeDerive).
  - by right.
  - reflexivity.
  - reflexivity.
  - reflexivity.
  - reflexivity.
  - left. reflexivity.
Defined.

(** ** C4: the flush decision of the ingestion loop *)

(** C4: after the series of a packet are appended, the loop flushes exactly
    when a second or more has elapsed since the timer was set or the batch
    holds fifty series or more.  On a flush a non-empty batch goes to a new
    writer and an empty batch takes its place, and the timer is set to the
    current time whether or not a writer was started; otherwise batch,
    timer and writers stay as they are. *)
Theorem C4_flush_decision normalize types st a series cache' :
  processPacket normalize types (packet a) (cache st) = Ok (series, cache') →
  let batch := seriesGroup st ++ series in
  let flush := influxWriteInterval <= clockSince a - timer st
               ∨ (influxWriteLimit <= length batch)%nat in
  ∃ st', mainStep normalize types st a = Ok st'
    ∧ cache st' = cache'
    ∧ (flush →
         timer st' = clockNow a
         ∧ seriesGroup st' = []
         ∧ writers st' = writers st ++ (if decide (batch = []) then [] else [batch]))
    ∧ (¬ flush →
         timer st' = timer st
         ∧ seriesGroup st' = batch
         ∧ writers st' = writers st).
Proof.
  intros Hp batch flush. unfold mainStep. rewrite Hp.
  cbn [mbind result_bind]. fold batch.
  destruct (Z.ltb_spec (clockSince a - timer st) influxWriteInterval) as [Ht|Ht];
    destruct (Nat.ltb_spec (length batch) influxWriteLimit) as [Hn|Hn];
    cbn [andb].
  1: { eexists; split; [done|]. cbn. split; [done|]. split; [|done].
       intros [?|?]; lia. }
  all: destruct (Nat.ltb_spec 0 (length batch)) as [Hl|Hl];
    (eexists; split; [done|]; cbn; split; [done|]; split;
     [intros _|intros Hnf; exfalso; apply Hnf; unfold flush; auto]).
  all: destruct batch as [|s batch']; cbn in *; try lia; try done.
  all: by rewrite ?app_nil_r.
Qed.

Lemma C4_flush_decision_witness :
  ∃ st',
    mainStep true typesdb
      {| timer := 0; seriesGroup := []; cache := ∅; writers := [] |}
      {| packet := sample collectd.TypeGauge 42.5 0;
         clockSince := 1000000000; clockNow := 1000000007 |} = Ok st'
    ∧ timer st' = 1000000007
    ∧ seriesGroup st' = []
    ∧ writers st' = [[samplePoint 0 42.5]].
Proof.
  destruct (C4_flush_decision true typesdb
              {| timer := 0; seriesGroup := []; cache := ∅; writers := [] |}
              {| packet := sample collectd.TypeGauge 42.5 0;
                 clockSince := 1000000000; clockNow := 1000000007 |}
              [samplePoint 0 42.5] ∅ eq_refl)
    as (st' & Hstep & _ & Hflush & _).
  exists st'. split; [exact Hstep|].
  apply Hflush. left. cbn. unfold influxWriteInterval. lia.
Defined.

(** Sixty GAUGE packets within 200 ms: one flush, by the size limit, of
    fifty series, and ten series waiting in the next batch. *)
Example burst_of_sixty :
  ∃ st, mainLoop true typesdb initialState (burst 60) = Ok st
        ∧ writers st = [replicate 50 (samplePoint 0 42.5)]
        ∧ seriesGroup st = replicate 10 (samplePoint 0 42.5)
        ∧ timer st = 200000000.
Proof. eexists. split; [vm_compute; reflexivity|]. repeat split. Qed.

(** A counter read as 100 and, a second later, as 150: one point, of value 50. *)
Example counter_after_one_second :
  ∃ st, mainLoop true typesdb initialState
          [arrival (sample collectd.TypeCounter 100 0) 1000;
           arrival (sample collectd.TypeCounter 150 1000000000) 2000] = Ok st
        ∧ seriesGroup st = [samplePoint 1000 50]
        ∧ writers st = [].
Proof. eexists. split; [vm_compute; reflexivity|]. repeat split. Qed.

(** ** C5: no elapsed time, or time running backwards *)

(** C5: on the normalisation path of section 4.2, step 4 (normalisation
    enabled, kind COUNTER or DERIVE), a value whose
    series has a cache entry with a valid value, and whose timestamp is not
    after the entry's, is sent as the raw difference to the entry: no
    division takes place. *)
Theorem C5_raw_difference types packet i beforeCache typeName value dataType before :
  dataType = collectd.TypeCounter ∨ dataType = collectd.TypeDerive →
  unknownShape types packet = false →
  typeNameOf packet (types !! collectd.Type_ packet) i = Ok typeName →
  collectd.ValueNumbers packet !! i = Some value →
  collectd.DataTypes packet !! i = Some dataType →
  beforeCache !! cacheKeyOf packet typeName = Some before →
  IsNaN (Value before) = false →
  sub64 (timestampOf packet) (Timestamp before) <= 0 →
  ∃ beforeCache',
    processValue true types packet i beforeCache
    = Ok (Some (mkSeries (nameOf packet typeName) (timestampOf packet)
                  (PrimFloat.sub value (Value before)) (hostNameOf packet)),
          beforeCache').
Proof.
  intros Hk Hu Ht Hv Hd Hb Hn Hdt.
  rewrite (processValue_run _ _ _ _ _ typeName value dataType) by done.
  unfold roundResult.
  assert (normalizationPath true dataType = true) as ->.
  { apply normalizationPath_spec. tauto. }
  rewrite Hb. unfold normalizeValue. rewrite Hn. cbn [negb].
  apply Z.ltb_ge in Hdt as ->. cbn. by eexists.
Qed.

Lemma C5_raw_difference_witness :
  ∃ beforeCache',
    processValue true typesdb (sample collectd.TypeCounter 30 0) 0
      {[ sampleKey := {| Timestamp := 0; Value := 10 |} ]}
    = Ok (Some (samplePoint 0 (PrimFloat.sub 30 10)), beforeCache').
Proof.
  apply (C5_raw_difference typesdb (sample collectd.TypeCounter 30 0) 0
           {[ sampleKey := {| Timestamp := 0; Value := 10 |} ]}
           "cpu-value" 30 collectd.TypeCounter {| Timestamp := 0; Value := 10 |}).
  - by left.
  - reflexivity.
  - reflexivity.
  - reflexivity.
  - reflexivity.
  - reflexivity.
  - reflexivity.
  - vm_compute. discriminate.
Defined.

(** ** C6: values of an unknown shape *)

Lemma processLoop_all_skipped normalize types packet indices acc beforeCache :
  unknownShape types packet = true →
  processLoop normalize types packet indices acc beforeCache = Ok (acc, beforeCache).
Proof.
  intros Hu. revert acc. induction indices as [|i rest IH]; intros acc; cbn; [done|].
  rewrite processValue_skip by done. cbn. by rewrite app_nil_r.
Qed.

(** C6: when the type name of a packet is not in the type table and the
    packet has no type-instance, every value of the packet is discarded:
    the round of each index appends no series and leaves the cache as it
    was, and the loop goes on to the next index, so that the packet as a
    whole yields no series and the same cache. *)
Theorem C6_unknown_type_discarded normalize types packet beforeCache :
  types !! collectd.Type_ packet = None →
  collectd.TypeInstance packet = ""%string →
  (∀ i, processValue normalize types packet i beforeCache = Ok (None, beforeCache))
  ∧ processPacket normalize types packet beforeCache = Ok ([], beforeCache).
Proof.
  intros Ht Hi.
  assert (unknownShape types packet = true) as Hu.
  { unfold unknownShape. rewrite Ht, Hi. by rewrite bool_decide_eq_true_2. }
  split.
  - intros i. by apply processValue_skip.
  - by apply processLoop_all_skipped.
Qed.

Lemma C6_unknown_type_discarded_witness :
  processPacket true typesdb
    {| collectd.Hostname := "web.example.org"; collectd.Plugin := "disk";
       collectd.PluginInstance := "sda"; collectd.Type_ := "disk_octets";
       collectd.TypeInstance := ""; collectd.DataTypes := [2; 2];
       collectd.ValueNames := ["read"; "write"]%string;
       collectd.ValueNumbers := [7%float; 9%float]; collectd.UnixNano := 0 |}
    {[ sampleKey := {| Timestamp := 0; Value := 10 |} ]}
  = Ok ([], {[ sampleKey := {| Timestamp := 0; Value := 10 |} ]}).
Proof.
  apply C6_unknown_type_discarded.
  - reflexivity.
  - reflexivity.
Defined.

(** ** C7: the cache entry after a round on the normalisation path *)

Lemma processValue_keeps_entries normalize types packet i beforeCache o beforeCache' k :
  processValue normalize types packet i beforeCache = Ok (o, beforeCache') →
  is_Some (beforeCache !! k) → is_Some (beforeCache' !! k).
Proof.
  intros H Hk.
  apply processValue_inv in H as [[_ ?]|(tn & v & d & _ & _ & _ & _ & Hr)]; [by simplify_eq|].
  unfold roundResult in Hr. destruct (normalizationPath normalize d); simplify_eq; [|done].
  rewrite lookup_insert. by case_decide.
Qed.

(** C7: whenever a round takes the normalisation path, the cache after
    the round maps the series key to the timestamp and the raw value of the
    current observation, whether a point was produced ([o] is [Some]) or
    not, and every other key keeps its entry.  No entry is ever deleted: the
    keys present before a packet is processed are present after it. *)
Theorem C7_cache_entry_overwritten normalize types :
  (∀ packet i beforeCache typeName value dataType,
      normalizationPath normalize dataType = true →
      unknownShape types packet = false →
      typeNameOf packet (types !! collectd.Type_ packet) i = Ok typeName →
      collectd.ValueNumbers packet !! i = Some value →
      collectd.DataTypes packet !! i = Some dataType →
      ∃ o beforeCache',
        processValue normalize types packet i beforeCache = Ok (o, beforeCache')
        ∧ beforeCache' !! cacheKeyOf packet typeName
          = Some {| Timestamp := timestampOf packet; Value := value |}
        ∧ ∀ k, k ≠ cacheKeyOf packet typeName → beforeCache' !! k = beforeCache !! k)
  ∧ (∀ packet beforeCache out beforeCache',
        processPacket normalize types packet beforeCache = Ok (out, beforeCache') →
        ∀ k, is_Some (beforeCache !! k) → is_Some (beforeCache' !! k)).
Proof.
  split.
  - intros packet i beforeCache typeName value dataType Hp Hu Ht Hv Hd.
    rewrite (processValue_run _ _ _ _ _ typeName value dataType) by done.
    unfold roundResult. rewrite Hp. cbn zeta.
    eexists _, _. split; [done|]. split.
    + by rewrite lookup_insert_eq.
    + intros k Hk. by rewrite lookup_insert_ne.
  - intros packet beforeCache out beforeCache' Hrun k Hk.
    revert Hrun. unfold processPacket.
    apply (processLoop_invariant normalize types packet
             (λ _ c, is_Some (c !! k))); [|done].
    intros i acc c o c' _ Hc Hi.
    by eapply processValue_keeps_entries.
Qed.

Lemma C7_cache_entry_overwritten_witness :
  ∃ o beforeCache',
    processValue true typesdb (sample collectd.TypeCounter 30 2000000) 0
      {[ sampleKey := {| Timestamp := 0; Value := 10 |} ]} = Ok (o, beforeCache')
    ∧ beforeCache' !! sampleKey = Some {| Timestamp := 2; Value := 30 |}.
Proof.
  destruct (proj1 (C7_cache_entry_overwritten true typesdb)
              (sample collectd.TypeCounter 30 2000000) 0%nat
              {[ sampleKey := {| Timestamp := 0; Value := 10 |} ]}
              "cpu-value"%string 30%float collectd.TypeCounter
              eq_refl eq_refl eq_refl eq_refl eq_refl)
    as (o & c' & Hrun & Hkey & _).
  exists o, c'. split; [exact Hrun|exact Hkey].
Defined.

(** ** C8: the name of a series *)

Lemma pluginNameOf_spec packet :
  pluginNameOf packet
  = if decide (collectd.PluginInstance packet = ""%string)
    then collectd.Plugin packet
    else collectd.Plugin packet +:+ "-" +:+ collectd.PluginInstance packet.
Proof.
  unfold pluginNameOf.
  destruct (String.eqb_spec (collectd.PluginInstance packet) "");
    by case_decide.
Qed.

(** The label that [typeNameOf] appends, for a packet that passed the
    guard of line 149. *)
Lemma typeNameOf_label types packet i typeName :
  unknownShape types packet = false →
  typeNameOf packet (types !! collectd.Type_ packet) i = Ok typeName →
  ∃ label, specLabel types packet i = Some label
           ∧ typeName = collectd.Type_ packet +:+ "-" +:+ label.
Proof.
  unfold unknownShape, typeNameOf, specLabel. intros Hu Ht.
  destruct (String.eqb_spec (collectd.TypeInstance packet) "") as [He|Hne];
    cbn [negb] in Ht.
  - rewrite andb_true_r in Hu. apply bool_decide_eq_false in Hu.
    rewrite decide_True by done.
    destruct (types !! collectd.Type_ packet) as [names|]; [|done].
    cbn in Ht. unfold index in Ht.
    destruct (names !! i) as [ti|] eqn:Hi; [|done].
    exists ti. cbn in *. rewrite Hi. split; congruence.
  - rewrite decide_False by done.
    exists (collectd.TypeInstance packet). split; congruence.
Qed.

(** C8: a series produced for the value at index [i] is named
    plugin(-pluginInstance).type-label, where the label is the
    type-instance of the packet if it has one, and otherwise the i-th
    data-source name that the type table declares for the type. *)
Theorem C8_series_name normalize types packet i beforeCache series beforeCache' :
  processValue normalize types packet i beforeCache = Ok (Some series, beforeCache') →
  ∃ label, specLabel types packet i = Some label
           ∧ influxdb.Name series = specSeriesName packet label.
Proof.
  intros H.
  apply processValue_inv in H as [[_ ?]|(tn & v & d & Hu & Ht & _ & _ & Hr)]; [done|].
  destruct (typeNameOf_label _ _ _ _ Hu Ht) as (label & Hl & ->).
  exists label. split; [done|].
  assert (influxdb.Name series
          = nameOf packet (collectd.Type_ packet +:+ "-" +:+ label)) as ->.
  { unfold roundResult in Hr.
    destruct (normalizationPath normalize d); cbn zeta in Hr.
    - destruct (normalizeValue _ _ _) as [[] ?]; cbn in Hr; [|done].
      by injection Hr as -> _.
    - by injection Hr as -> _. }
  unfold nameOf, specSeriesName. by rewrite pluginNameOf_spec.
Qed.

Lemma C8_series_name_witness :
  ∃ label, specLabel typesdb (sample collectd.TypeGauge 42.5 0) 0 = Some label
           ∧ influxdb.Name (samplePoint 0 42.5)
             = specSeriesName (sample collectd.TypeGauge 42.5 0) label.
Proof.
  apply (C8_series_name true typesdb (sample collectd.TypeGauge 42.5 0) 0 ∅
           (samplePoint 0 42.5) ∅).
  reflexivity.
Defined.

(** ** C9: when processing a packet panics *)

Lemma typeNameOf_is_Ok (types : gmap string (list string)) packet i :
  is_Ok (typeNameOf packet (types !! collectd.Type_ packet) i)
  ↔ (collectd.TypeInstance packet = ""%string →
     ∀ t, types !! collectd.Type_ packet = Some t → (i < length t)%nat).
Proof.
  unfold typeNameOf.
  destruct (String.eqb_spec (collectd.TypeInstance packet) "") as [He|Hne]; cbn [negb].
  - destruct (types !! collectd.Type_ packet) as [names|]; cbn.
    + pose proof (index_is_Ok names i) as Hi.
      destruct (index names i); cbn in *; split.
      * intros _ _ t [= <-]. tauto.
      * done.
      * done.
      * intros H. apply Hi. by apply H.
    + split; [|done]. by intros _ _ t.
  - split; [|done]. by intros _ ?.
Qed.

(** C9: [processPacket] returns without a panic only if, when the packet
    has no type-instance and its type is known, the packet has no more
    values than the type has data-source names: the read [t[i]] of line 168
    has no bounds check, so a packet with more values panics.  For a packet
    with one number and one kind per value name the condition is also
    sufficient. *)
Theorem C9_total_only_if_labels_in_range normalize types packet beforeCache :
  (is_Ok (processPacket normalize types packet beforeCache) → labelsInRange types packet)
  ∧ (wellFormed packet → labelsInRange types packet →
     is_Ok (processPacket normalize types packet beforeCache)).
Proof.
  unfold processPacket. rewrite processLoop_is_Ok.
  unfold labelsInRange. setoid_rewrite elem_of_seq.
  setoid_rewrite typeNameOf_is_Ok.
  set (n := length (collectd.ValueNames packet)).
  split.
  - intros H Hi t Ht.
    destruct (decide (n <= length t)%nat) as [|Hgt]; [done|].
    destruct (H (length t)) as [Hu|[Hl _]]; [lia| |].
    + unfold unknownShape in Hu. rewrite Ht in Hu. done.
    + specialize (Hl Hi t Ht). lia.
  - intros [Hv Hd] H i Hi. rewrite Hv, Hd. fold n. right. split; [|lia].
    intros He t Ht. specialize (H He t Ht). lia.
Qed.

Lemma C9_total_only_if_labels_in_range_witness :
  ¬ is_Ok (processPacket true typesdb
             {| collectd.Hostname := "web.example.org"; collectd.Plugin := "cpu";
                collectd.PluginInstance := "0"; collectd.Type_ := "cpu";
                collectd.TypeInstance := ""; collectd.DataTypes := [1; 1];
                collectd.ValueNames := ["value"; "extra"]%string;
                collectd.ValueNumbers := [1%float; 2%float]; collectd.UnixNano := 0 |}
             ∅)
  ∧ is_Ok (processPacket true typesdb (sample collectd.TypeGauge 42.5 0) ∅).
Proof.
  split.
  - intros H.
    apply (proj1 (C9_total_only_if_labels_in_range true typesdb _ ∅)) in H.
    specialize (H eq_refl ["value"%string] eq_refl). cbn in H. lia.
  - apply (proj2 (C9_total_only_if_labels_in_range true typesdb
                    (sample collectd.TypeGauge 42.5 0) ∅)).
    + split; reflexivity.
    + intros _ t Ht. vm_compute in Ht. injection Ht as <-. cbn. lia.
Defined.

(** ** C10: the host label *)

Lemma roundResult_host normalize packet beforeCache typeName value dataType o beforeCache' :
  roundResult normalize packet beforeCache typeName value dataType = (o, beforeCache') →
  (∀ series, o = Some series →
     ∃ timestamp sent,
       influxdb.Points series
       = [[influxdb.Int64 timestamp; influxdb.Float64 sent;
           influxdb.Str (dotsToUnderscores (collectd.Hostname packet))]])
  ∧ (beforeCache' = beforeCache
     ∨ ∃ entry, beforeCache' = <[cacheKeyOf packet typeName := entry]> beforeCache).
Proof.
  unfold roundResult. intros Hr.
  destruct (normalizationPath normalize dataType); cbn zeta in Hr.
  - destruct (normalizeValue _ _ _) as [[] sent]; cbn in Hr;
      injection Hr as <- <-; (split; [|right; by eexists]).
    + intros series [= <-]. cbn. unfold hostNameOf. rewrite Replace_dots. by eexists _, _.
    + done.
  - injection Hr as <- <-. split; [|by left].
    intros series [= <-]. cbn. unfold hostNameOf. rewrite Replace_dots. by eexists _, _.
Qed.

(** C10: every series that [processPacket] produces carries, as the host
    cell of its point, the host name of the packet with every "." replaced
    by "_", and every cache key that the packet writes begins with that
    same sanitised host name followed by ".".  The sanitised name contains
    no "." at all. *)
Theorem C10_host_label_sanitised normalize types packet beforeCache out beforeCache' :
  processPacket normalize types packet beforeCache = Ok (out, beforeCache') →
  (∀ series, series ∈ out →
     ∃ timestamp sent,
       influxdb.Points series
       = [[influxdb.Int64 timestamp; influxdb.Float64 sent;
           influxdb.Str (dotsToUnderscores (collectd.Hostname packet))]])
  ∧ (∀ k, beforeCache' !! k ≠ beforeCache !! k →
       ∃ rest, k = dotsToUnderscores (collectd.Hostname packet) +:+ "." +:+ rest)
  ∧ (∀ n, String.get n (dotsToUnderscores (collectd.Hostname packet)) ≠ Some "."%char).
Proof.
  intros Hrun.
  enough ((∀ series, series ∈ out →
             ∃ timestamp sent,
               influxdb.Points series
               = [[influxdb.Int64 timestamp; influxdb.Float64 sent;
                   influxdb.Str (dotsToUnderscores (collectd.Hostname packet))]])
          ∧ (∀ k, beforeCache' !! k ≠ beforeCache !! k →
               ∃ rest, k = dotsToUnderscores (collectd.Hostname packet) +:+ "." +:+ rest))
    as [H1 H2].
  { split; [exact H1|]. split; [exact H2|]. intros n. apply dotsToUnderscores_no_dot. }
  revert Hrun. unfold processPacket.
  apply (processLoop_invariant normalize types packet
           (λ acc c,
              (∀ series, series ∈ acc →
                 ∃ timestamp sent,
                   influxdb.Points series
                   = [[influxdb.Int64 timestamp; influxdb.Float64 sent;
                       influxdb.Str (dotsToUnderscores (collectd.Hostname packet))]])
              ∧ (∀ k, c !! k ≠ beforeCache !! k →
                   ∃ rest, k = dotsToUnderscores (collectd.Hostname packet)
                               +:+ "." +:+ rest))).
  - intros i acc c o c' _ [Hacc Hc] Hi.
    apply processValue_inv in Hi as [[_ ?]|(tn & v & d & _ & _ & _ & _ & Hr)].
    + simplify_eq. cbn. by rewrite app_nil_r.
    + symmetry in Hr. apply roundResult_host in Hr as [Ho Hc'].
      split.
      * intros series [Hs|Hs]%elem_of_app; [by apply Hacc|].
        destruct o as [s|]; cbn in Hs; [|by apply elem_of_nil in Hs].
        apply list_elem_of_singleton in Hs as ->. by apply Ho.
      * intros k Hk. destruct Hc' as [->|[entry ->]]; [by apply Hc|].
        destruct (decide (k = cacheKeyOf packet tn)) as [->|Hne].
        -- unfold cacheKeyOf, hostNameOf. rewrite Replace_dots. by eexists.
        -- rewrite lookup_insert_ne in Hk by done. by apply Hc.
  - split; [|done]. intros series Hs. by apply elem_of_nil in Hs.
Qed.

Lemma C10_host_label_sanitised_witness :
  ∃ timestamp sent,
    influxdb.Points (samplePoint 0 42.5)
    = [[influxdb.Int64 timestamp; influxdb.Float64 sent; influxdb.Str "web_example_org"]].
Proof.
  apply (proj1 (C10_host_label_sanitised true typesdb (sample collectd.TypeGauge 42.5 0) ∅
                  [samplePoint 0 42.5] ∅ eq_refl) (samplePoint 0 42.5)).
  apply list_elem_of_here.
Defined.

(** * Further properties of [processPacket] and of the loop of [main] *)

(** ** Shared facts about the loop of [processPacket] *)

Lemma processLoop_acc normalize types packet indices acc beforeCache :
  processLoop normalize types packet indices acc beforeCache
  = match processLoop normalize types packet indices [] beforeCache with
    | Ok (new, beforeCache') => Ok (acc ++ new, beforeCache')
    | Panic msg => Panic msg
    end.
Proof.
  revert acc beforeCache. induction indices as [|i rest IH]; intros acc c; cbn.
  - by rewrite app_nil_r.
  - destruct (processValue normalize types packet i c) as [[o c1]|]; [|done].
    rewrite (IH (acc ++ option_list o)), (IH (option_list o)).
    destruct (processLoop normalize types packet rest [] c1) as [[new c2]|]; [|done].
    by rewrite app_assoc.
Qed.

Lemma processLoop_length normalize types packet indices acc beforeCache out beforeCache' :
  processLoop normalize types packet indices acc beforeCache = Ok (out, beforeCache') →
  (length out <= length acc + length indices)%nat.
Proof.
  revert acc beforeCache. induction indices as [|i rest IH]; intros acc c H; cbn in H.
  - simplify_eq. lia.
  - destruct (processValue normalize types packet i c) as [[o c1]|]; [|done].
    apply IH in H. rewrite length_app in H. destruct o; cbn in *; lia.
Qed.

Lemma processLoop_ext normalize normalize' types types' packet packet' indices acc beforeCache :
  (∀ i c, processValue normalize types packet i c
          = processValue normalize' types' packet' i c) →
  processLoop normalize types packet indices acc beforeCache
  = processLoop normalize' types' packet' indices acc beforeCache.
Proof.
  intros Hext. revert acc beforeCache.
  induction indices as [|i rest IH]; intros acc c; cbn; [done|].
  rewrite Hext. destruct (processValue normalize' types' packet' i c) as [[o c1]|]; [|done].
  apply IH.
Qed.

Lemma roundResult_series normalize packet beforeCache typeName value dataType series c' :
  roundResult normalize packet beforeCache typeName value dataType = (Some series, c') →
  ∃ sent, series = rawSeries packet typeName sent.
Proof.
  unfold roundResult, rawSeries. intros Hr.
  destruct (normalizationPath normalize dataType); cbn zeta in Hr.
  - destruct (normalizeValue _ _ _) as [[] sent]; cbn in Hr; [|done].
    injection Hr as <- _. by eexists.
  - injection Hr as <- _. by eexists.
Qed.

(** ** How many series a packet gives, and their shape *)

(** X1: a packet gives at most one series for each of its values. *)
Theorem X1_at_most_one_series_per_value normalize types packet beforeCache out beforeCache' :
  processPacket normalize types packet beforeCache = Ok (out, beforeCache') →
  (length out <= length (collectd.ValueNames packet))%nat.
Proof.
  unfold processPacket. intros H. apply processLoop_length in H.
  rewrite length_seq in H. cbn in H. lia.
Qed.

Lemma X1_at_most_one_series_per_value_witness :
  (length [samplePoint 0 42.5] <= length (collectd.ValueNames (sample collectd.TypeGauge 42.5 0)))%nat.
Proof.
  apply (X1_at_most_one_series_per_value true typesdb (sample collectd.TypeGauge 42.5 0) ∅
           [samplePoint 0 42.5] ∅).
  reflexivity.
Defined.

(** X2: every series of a packet has the columns time, value and host, and
    exactly one point, of three cells: the time of the packet in
    milliseconds, a float, and the host name.  So all the series of one
    packet carry the same time. *)
Theorem X2_series_shape normalize types packet beforeCache out beforeCache' :
  processPacket normalize types packet beforeCache = Ok (out, beforeCache') →
  ∀ series, series ∈ out →
    influxdb.Columns series = ["time"; "value"; "host"]%string
    ∧ ∃ sent, influxdb.Points series
              = [[influxdb.Int64 (div64 (collectd.UnixNano packet) 1000000);
                  influxdb.Float64 sent;
                  influxdb.Str (hostNameOf packet)]].
Proof.
  unfold processPacket.
  apply (processLoop_invariant normalize types packet
           (λ acc _, ∀ series, series ∈ acc →
              influxdb.Columns series = ["time"; "value"; "host"]%string
              ∧ ∃ sent, influxdb.Points series
                        = [[influxdb.Int64 (div64 (collectd.UnixNano packet) 1000000);
                            influxdb.Float64 sent;
                            influxdb.Str (hostNameOf packet)]])).
  - intros i acc c o c' _ Hacc Hi series [Hs|Hs]%elem_of_app; [by apply Hacc|].
    destruct o as [s|]; cbn in Hs; [|by apply elem_of_nil in Hs].
    apply list_elem_of_singleton in Hs as ->.
    apply processValue_inv in Hi as [[_ ?]|(tn & v & d & _ & _ & _ & _ & Hr)]; [done|].
    symmetry in Hr. apply roundResult_series in Hr as [sent ->].
    split; [done|]. by exists sent.
  - intros series Hs. by apply elem_of_nil in Hs.
Qed.

Lemma X2_series_shape_witness :
  influxdb.Columns (samplePoint 1500 150) = ["time"; "value"; "host"]%string
  ∧ ∃ sent, influxdb.Points (samplePoint 1500 150)
            = [[influxdb.Int64 1500; influxdb.Float64 sent; influxdb.Str "web_example_org"]].
Proof.
  apply (X2_series_shape true typesdb (sample collectd.TypeCounter 250 1500000000)
           {[ sampleKey := {| Timestamp := 0; Value := 100 |} ]}
           [samplePoint 1500 150]
           {[ sampleKey := {| Timestamp := 1500; Value := 250 |} ]}).
  - vm_compute. reflexivity.
  - apply list_elem_of_here.
Defined.

(** ** Packets off the normalisation path *)

Lemma processLoop_passthrough normalize types packet
    (P : nat → influxdb.Series → Prop) indices beforeCache out beforeCache' :
  (∀ i c o c', i ∈ indices →
     processValue normalize types packet i c = Ok (o, c') →
     c' = c ∧ ∃ series, o = Some series ∧ P i series) →
  processLoop normalize types packet indices [] beforeCache = Ok (out, beforeCache') →
  beforeCache' = beforeCache ∧ Forall2 P indices out.
Proof.
  revert out. induction indices as [|i rest IH]; intros out Hstep Hrun; cbn in Hrun.
  - simplify_eq. split; [done|]. constructor.
  - destruct (processValue normalize types packet i beforeCache) as [[o c1]|] eqn:Hi; [|done].
    destruct (Hstep i beforeCache o c1 ltac:(by left) Hi) as (-> & series & -> & HP).
    rewrite processLoop_acc in Hrun.
    destruct (processLoop normalize types packet rest [] beforeCache)
      as [[new c2]|] eqn:Hrest; [|done].
    injection Hrun as <- <-.
    destruct (IH new) as [-> Hall]; [|done|].
    + intros j c o c' Hj. apply Hstep. by right.
    + split; [done|]. cbn. by constructor.
Qed.

(** X3: a packet of a known shape none of whose values is on the normalisation
    path (all of kind GAUGE or ABSOLUTE, say) leaves the cache as it was and
    gives exactly one series per value, in the order of the values, each
    with the raw value. *)
Theorem X3_packet_off_path_sent_raw normalize types packet beforeCache out beforeCache' :
  unknownShape types packet = false →
  (∀ dataType, dataType ∈ collectd.DataTypes packet →
               normalizationPath normalize dataType = false) →
  processPacket normalize types packet beforeCache = Ok (out, beforeCache') →
  beforeCache' = beforeCache
  ∧ length out = length (collectd.ValueNames packet)
  ∧ ∀ i series, out !! i = Some series →
      ∃ typeName value,
        typeNameOf packet (types !! collectd.Type_ packet) i = Ok typeName
        ∧ collectd.ValueNumbers packet !! i = Some value
        ∧ series = rawSeries packet typeName value.
Proof.
  intros Hu Hoff Hrun. unfold processPacket in Hrun.
  apply (processLoop_passthrough normalize types packet
           (λ i series, ∃ typeName value,
              typeNameOf packet (types !! collectd.Type_ packet) i = Ok typeName
              ∧ collectd.ValueNumbers packet !! i = Some value
              ∧ series = rawSeries packet typeName value)) in Hrun as [-> Hall].
  - split; [done|]. split.
    + apply Forall2_length in Hall. by rewrite length_seq in Hall.
    + intros i series Hi.
      destruct (Forall2_lookup_r _ _ _ _ _ Hall Hi) as (j & Hj & HP).
      apply lookup_seq in Hj as [-> _]. exact HP.
  - intros i c o c' _ Hi.
    apply processValue_inv in Hi as [[? _]|(tn & v & d & _ & Ht & Hv & Hd & Hr)]; [congruence|].
    unfold roundResult in Hr. rewrite Hoff in Hr by (by eapply list_elem_of_lookup_2).
    injection Hr as -> ->. split; [done|]. eexists. split; [done|]. by exists tn, v.
Qed.

Lemma X3_packet_off_path_sent_raw_witness :
  ({[ sampleKey := {| Timestamp := 0; Value := 10 |} ]} : gmap string CacheEntry)
  = {[ sampleKey := {| Timestamp := 0; Value := 10 |} ]}
  ∧ length [samplePoint 0 42.5] = length (collectd.ValueNames (sample collectd.TypeGauge 42.5 0)).
Proof.
  destruct (X3_packet_off_path_sent_raw true typesdb (sample collectd.TypeGauge 42.5 0)
              {[ sampleKey := {| Timestamp := 0; Value := 10 |} ]}
              [samplePoint 0 42.5]
              {[ sampleKey := {| Timestamp := 0; Value := 10 |} ]}) as (H1 & H2 & _).
  - reflexivity.
  - intros d Hd. apply list_elem_of_singleton in Hd as ->. reflexivity.
  - vm_compute. reflexivity.
  - split; [exact H1|exact H2].
Defined.

(** ** Rounds on the normalisation path *)

(** X4: on the normalisation path a point is produced exactly when the cache
    holds, under the key of the series, an entry whose value is a number. *)
Theorem X4_point_iff_valid_entry normalize types packet i beforeCache typeName value dataType :
  normalizationPath normalize dataType = true →
  unknownShape types packet = false →
  typeNameOf packet (types !! collectd.Type_ packet) i = Ok typeName →
  collectd.ValueNumbers packet !! i = Some value →
  collectd.DataTypes packet !! i = Some dataType →
  ∃ o beforeCache',
    processValue normalize types packet i beforeCache = Ok (o, beforeCache')
    ∧ (is_Some o ↔ ∃ before, beforeCache !! cacheKeyOf packet typeName = Some before
                             ∧ IsNaN (Value before) = false).
Proof.
  intros Hp Hu Ht Hv Hd.
  rewrite (processValue_run _ _ _ _ _ typeName value dataType) by done.
  unfold roundResult. rewrite Hp. cbn zeta.
  eexists _, _. split; [done|].
  unfold normalizeValue.
  destruct (beforeCache !! cacheKeyOf packet typeName) as [before|]; cbn.
  - destruct (IsNaN (Value before)) eqn:Hn; cbn.
    + split; [by intros [? [=]]|]. intros (b & [= <-] & Hb). congruence.
    + split; [intros _; by exists before|intros _].
      destruct (0 <? _); cbn; by eexists.
  - split; [by intros [? [=]]|]. by intros (b & [=] & _).
Qed.

Lemma X4_point_iff_valid_entry_witness :
  ∃ o beforeCache',
    processValue true typesdb (sample collectd.TypeCounter 30 2000000) 0
      {[ sampleKey := {| Timestamp := 0; Value := 10 |} ]} = Ok (o, beforeCache')
    ∧ (is_Some o ↔ ∃ before,
          ({[ sampleKey := {| Timestamp := 0; Value := 10 |} ]} : gmap string CacheEntry)
            !! sampleKey = Some before
          ∧ IsNaN (Value before) = false).
Proof.
  apply (X4_point_iff_valid_entry true typesdb (sample collectd.TypeCounter 30 2000000) 0
           {[ sampleKey := {| Timestamp := 0; Value := 10 |} ]}
           "cpu-value" 30 collectd.TypeCounter eq_refl eq_refl eq_refl eq_refl eq_refl).
Defined.

(** X5: two observations of one series, one after the other: whatever the
    cache held before, the second gives a point, computed from the first
    observation alone, provided the first raw value is a number; and the
    cache ends with the second observation under the key. *)
Theorem X5_rate_from_last_observation normalize types beforeCache
    p1 i1 typeName1 value1 dataType1 p2 i2 typeName2 value2 dataType2 :
  normalizationPath normalize dataType1 = true →
  unknownShape types p1 = false →
  typeNameOf p1 (types !! collectd.Type_ p1) i1 = Ok typeName1 →
  collectd.ValueNumbers p1 !! i1 = Some value1 →
  collectd.DataTypes p1 !! i1 = Some dataType1 →
  normalizationPath normalize dataType2 = true →
  unknownShape types p2 = false →
  typeNameOf p2 (types !! collectd.Type_ p2) i2 = Ok typeName2 →
  collectd.ValueNumbers p2 !! i2 = Some value2 →
  collectd.DataTypes p2 !! i2 = Some dataType2 →
  cacheKeyOf p1 typeName1 = cacheKeyOf p2 typeName2 →
  IsNaN value1 = false →
  ∃ o1 c1,
    processValue normalize types p1 i1 beforeCache = Ok (o1, c1)
    ∧ processValue normalize types p2 i2 c1
      = Ok (Some (rawSeries p2 typeName2
                    (if 0 <? sub64 (timestampOf p2) (timestampOf p1)
                     then PrimFloat.div (PrimFloat.sub value2 value1)
                            (float64_of_int64
                               (div64 (sub64 (timestampOf p2) (timestampOf p1)) 1000))
                     else PrimFloat.sub value2 value1)),
            <[cacheKeyOf p2 typeName2 :=
                {| Timestamp := timestampOf p2; Value := value2 |}]> beforeCache).
Proof.
  intros Hp1 Hu1 Ht1 Hv1 Hd1 Hp2 Hu2 Ht2 Hv2 Hd2 Hkey Hn.
  rewrite (processValue_run _ _ _ _ _ typeName1 value1 dataType1) by done.
  unfold roundResult at 1. rewrite Hp1. cbn zeta.
  eexists _, _. split; [done|].
  rewrite (processValue_run _ _ _ _ _ typeName2 value2 dataType2) by done.
  unfold roundResult. rewrite Hp2. cbn zeta.
  rewrite Hkey, lookup_insert_eq, insert_insert_eq.
  unfold normalizeValue, rawSeries. cbn [Value Timestamp]. rewrite Hn. cbn [negb].
  by destruct (0 <? _).
Qed.

Lemma X5_rate_from_last_observation_witness :
  ∃ o1 c1,
    processValue true typesdb (sample collectd.TypeCounter 100 0) 0
      {[ sampleKey := {| Timestamp := 77; Value := 5 |} ]} = Ok (o1, c1)
    ∧ processValue true typesdb (sample collectd.TypeCounter 150 1000000000) 0 c1
      = Ok (Some (samplePoint 1000 50),
            <[sampleKey := {| Timestamp := 1000; Value := 150 |}]>
              {[ sampleKey := {| Timestamp := 77; Value := 5 |} ]}).
Proof.
  destruct (X5_rate_from_last_observation true typesdb
              {[ sampleKey := {| Timestamp := 77; Value := 5 |} ]}
              (sample collectd.TypeCounter 100 0) 0 "cpu-value" 100 collectd.TypeCounter
              (sample collectd.TypeCounter 150 1000000000) 0 "cpu-value" 150
              collectd.TypeCounter
              eq_refl eq_refl eq_refl eq_refl eq_refl eq_refl eq_refl eq_refl eq_refl eq_refl
              eq_refl eq_refl)
    as (o1 & c1 & H1 & H2).
  exists o1, c1. split; [exact H1|exact H2].
Defined.

(** ** Packets that carry their own type-instance *)

Lemma processValue_explicit_instance normalize types types' packet i beforeCache :
  collectd.TypeInstance packet ≠ ""%string →
  processValue normalize types packet i beforeCache
  = processValue normalize types' packet i beforeCache.
Proof.
  intros Hne. unfold processValue, typeNameOf.
  apply String.eqb_neq in Hne. rewrite Hne. by rewrite !andb_false_r.
Qed.

(** X6: for a packet with a type-instance the type table is not consulted:
    the result is the same for every table, whether the type is known or
    not; and if the packet has one number and one kind per value name,
    processing it does not panic. *)
Theorem X6_type_instance_overrides_table normalize types types' packet beforeCache :
  collectd.TypeInstance packet ≠ ""%string →
  processPacket normalize types packet beforeCache
  = processPacket normalize types' packet beforeCache
  ∧ (wellFormed packet → is_Ok (processPacket normalize types packet beforeCache)).
Proof.
  intros Hne. split.
  - unfold processPacket. apply processLoop_ext.
    intros i c. by apply processValue_explicit_instance.
  - intros [Hv Hd]. unfold processPacket. apply processLoop_is_Ok.
    intros i [_ Hi]%elem_of_seq. right. rewrite Hv, Hd. split; [|lia].
    apply typeNameOf_is_Ok. intros He. congruence.
Qed.

Lemma X6_type_instance_overrides_table_witness :
  processPacket true typesdb (octets collectd.TypeGauge 1 2 0) ∅
  = processPacket true ∅ (octets collectd.TypeGauge 1 2 0) ∅
  ∧ is_Ok (processPacket true typesdb (octets collectd.TypeGauge 1 2 0) ∅).
Proof.
  destruct (X6_type_instance_overrides_table true typesdb ∅
              (octets collectd.TypeGauge 1 2 0) ∅) as [H1 H2].
  - discriminate.
  - split; [exact H1|]. apply H2. split; reflexivity.
Defined.

(** X7: the values of a packet with a type-instance all get the same series
    key.  So when two values of such a packet are on the normalisation
    path, the second is measured against the first value of the same
    packet, not against its own last observation: its point carries the
    difference of the two values, and the first value is lost from the
    cache. *)
Theorem X7_values_of_a_packet_share_the_key normalize types packet beforeCache
    name0 name1 value0 value1 dataType0 dataType1 :
  collectd.TypeInstance packet ≠ ""%string →
  collectd.ValueNames packet = [name0; name1] →
  collectd.ValueNumbers packet = [value0; value1] →
  collectd.DataTypes packet = [dataType0; dataType1] →
  normalizationPath normalize dataType0 = true →
  normalizationPath normalize dataType1 = true →
  IsNaN value0 = false →
  let typeName := collectd.Type_ packet +:+ "-" +:+ collectd.TypeInstance packet in
  ∃ o0,
    processPacket normalize types packet beforeCache
    = Ok (option_list o0 ++ [rawSeries packet typeName (PrimFloat.sub value1 value0)],
          <[cacheKeyOf packet typeName :=
              {| Timestamp := timestampOf packet; Value := value1 |}]> beforeCache).
Proof.
  intros Hne Hn Hv Hd Hp0 Hp1 Hnan typeName.
  assert (unknownShape types packet = false) as Hu.
  { unfold unknownShape. apply String.eqb_neq in Hne. rewrite Hne. apply andb_false_r. }
  assert (∀ i, typeNameOf packet (types !! collectd.Type_ packet) i = Ok typeName) as Ht.
  { intros i. unfold typeNameOf. apply String.eqb_neq in Hne. by rewrite Hne. }
  unfold processPacket. rewrite Hn. cbn [length seq processLoop].
  rewrite (processValue_run _ _ _ _ _ typeName value0 dataType0);
    [|done|done|by rewrite Hv|by rewrite Hd].
  unfold roundResult at 1. rewrite Hp0. cbn zeta.
  rewrite (processValue_run _ _ _ _ _ typeName value1 dataType1);
    [|done|done|by rewrite Hv|by rewrite Hd].
  unfold roundResult. rewrite Hp1. cbn zeta.
  rewrite lookup_insert_eq, insert_insert_eq.
  unfold normalizeValue. cbn [Value Timestamp]. rewrite Hnan. cbn [negb].
  assert (sub64 (timestampOf packet) (timestampOf packet) = 0) as ->.
  { unfold sub64. rewrite Z.sub_diag. reflexivity. }
  cbn. by eexists.
Qed.

Lemma X7_values_of_a_packet_share_the_key_witness :
  ∃ o0,
    processPacket true typesdb (octets collectd.TypeDerive 1000 400 0) ∅
    = Ok (option_list o0
          ++ [mkSeries "interface.if_octets-eth0" 0 (-600) "web_example_org"],
          <["web_example_org.interface.if_octets-eth0" :=
              {| Timestamp := 0; Value := 400 |}]> ∅).
Proof.
  apply (X7_values_of_a_packet_share_the_key true typesdb
           (octets collectd.TypeDerive 1000 400 0) ∅ "rx" "tx" 1000 400
           collectd.TypeDerive collectd.TypeDerive).
  - discriminate.
  - reflexivity.
  - reflexivity.
  - reflexivity.
  - reflexivity.
  - reflexivity.
  - reflexivity.
Defined.

(** ** Host names *)

Lemma dotsToUnderscores_without_dots s :
  (∀ n, String.get n s ≠ Some "."%char) → dotsToUnderscores s = s.
Proof.
  induction s as [|c s IH]; intros Hs; cbn; [done|].
  rewrite IH by (intros n; apply (Hs (S n))).
  destruct (Ascii.eqb_spec c ".") as [->|]; [|done].
  by specialize (Hs 0%nat).
Qed.

Lemma processValue_same_sanitised_host normalize types packet h1 h2 i beforeCache :
  dotsToUnderscores h1 = dotsToUnderscores h2 →
  processValue normalize types (withHostname h1 packet) i beforeCache
  = processValue normalize types (withHostname h2 packet) i beforeCache.
Proof.
  intros Hh. unfold processValue. cbn [withHostname collectd.Hostname collectd.Type_
    collectd.TypeInstance collectd.ValueNumbers collectd.DataTypes collectd.UnixNano].
  rewrite !Replace_dots, Hh. reflexivity.
Qed.

(** X8: two hosts whose names differ only in "." against "_" are one host to
    the proxy: the same packet from either gives the same series, with the
    same host label, and reads and writes the same cache entries. *)
Theorem X8_hosts_collide_after_sanitising normalize types packet h1 h2 beforeCache :
  dotsToUnderscores h1 = dotsToUnderscores h2 →
  processPacket normalize types (withHostname h1 packet) beforeCache
  = processPacket normalize types (withHostname h2 packet) beforeCache.
Proof.
  intros Hh. unfold processPacket. cbn [withHostname collectd.ValueNames].
  apply processLoop_ext. intros i c. by apply processValue_same_sanitised_host.
Qed.

Lemma X8_hosts_collide_after_sanitising_witness :
  processPacket true typesdb (withHostname "db.1" (sample collectd.TypeCounter 30 0))
    {[ sampleKey := {| Timestamp := 0; Value := 10 |} ]}
  = processPacket true typesdb (withHostname "db_1" (sample collectd.TypeCounter 30 0))
      {[ sampleKey := {| Timestamp := 0; Value := 10 |} ]}.
Proof.
  apply X8_hosts_collide_after_sanitising. reflexivity.
Defined.

(** X9: the host name sent has the length of the host name received and the
    same bytes except where that has a "."; a host name without "."
    is sent as it is. *)
Theorem X9_host_name_kept_but_for_dots packet :
  String.length (hostNameOf packet) = String.length (collectd.Hostname packet)
  ∧ (∀ n c, String.get n (collectd.Hostname packet) = Some c → c ≠ "."%char →
            String.get n (hostNameOf packet) = Some c)
  ∧ ((∀ n, String.get n (collectd.Hostname packet) ≠ Some "."%char) →
     hostNameOf packet = collectd.Hostname packet).
Proof.
  unfold hostNameOf. rewrite Replace_dots. split; [apply dotsToUnderscores_length|]. split.
  - intros n c Hc Hne. rewrite dotsToUnderscores_get, Hc. cbn.
    by destruct (Ascii.eqb_spec c ".").
  - apply dotsToUnderscores_without_dots.
Qed.

Lemma X9_host_name_kept_but_for_dots_witness :
  hostNameOf (withHostname "localhost" (sample collectd.TypeGauge 1 0)) = "localhost"%string
  ∧ String.get 0 (hostNameOf (sample collectd.TypeGauge 1 0)) = Some "w"%char.
Proof.
  split.
  - apply (proj2 (proj2 (X9_host_name_kept_but_for_dots
                           (withHostname "localhost" (sample collectd.TypeGauge 1 0))))).
    intros n. do 10 (destruct n as [|n]; [discriminate|]). discriminate.
  - apply (proj1 (proj2 (X9_host_name_kept_but_for_dots (sample collectd.TypeGauge 1 0)))
             0%nat "w"%char).
    + reflexivity.
    + discriminate.
Defined.

(** ** Shared facts about the loop of [main] *)

(** The three ways an iteration can end. *)
Lemma mainStep_inv normalize types st a st' :
  mainStep normalize types st a = Ok st' →
  ∃ series,
    processPacket normalize types (packet a) (cache st) = Ok (series, cache st')
    ∧ ((timer st' = timer st
        ∧ seriesGroup st' = seriesGroup st ++ series
        ∧ writers st' = writers st
        ∧ (length (seriesGroup st ++ series) < influxWriteLimit)%nat)
       ∨ (timer st' = clockNow a
          ∧ seriesGroup st' = []
          ∧ writers st' = writers st ++ [seriesGroup st ++ series]
          ∧ (0 < length (seriesGroup st ++ series))%nat)
       ∨ (timer st' = clockNow a
          ∧ seriesGroup st' = []
          ∧ writers st' = writers st
          ∧ seriesGroup st ++ series = [])).
Proof.
  unfold mainStep.
  destruct (processPacket normalize types (packet a) (cache st)) as [[series c']|]; [|done].
  cbn [mbind result_bind]. remember (seriesGroup st ++ series) as batch eqn:Hb.
  destruct (Z.ltb_spec (clockSince a - timer st) influxWriteInterval) as [Ht|Ht];
    destruct (Nat.ltb_spec (length batch) influxWriteLimit) as [Hn|Hn];
    cbn [andb].
  1: { intros [= <-]. exists series. rewrite <- Hb. split; [done|]. left. done. }
  all: destruct (Nat.ltb_spec 0 (length batch)) as [Hl|Hl];
    intros [= <-]; exists series; rewrite <- Hb; (split; [done|]); right.
  all: try (left; done).
  all: right; destruct batch; cbn in *; [done|lia].
Qed.

Lemma mainLoop_invariant normalize types (R : LoopState → Prop) channel :
  (∀ st a st', a ∈ channel → R st → mainStep normalize types st a = Ok st' → R st') →
  ∀ st st', R st → mainLoop normalize types st channel = Ok st' → R st'.
Proof.
  induction channel as [|a rest IH]; intros Hstep st st' HR Hrun; cbn in Hrun.
  - by simplify_eq.
  - destruct (mainStep normalize types st a) as [st1|] eqn:Ha; [|done].
    eapply IH; [| |exact Hrun].
    + intros st2 b st3 Hb. apply Hstep. by right.
    + eapply Hstep; [by left|exact HR|exact Ha].
Qed.

Lemma processAll_acc normalize types packets produced beforeCache :
  processAll normalize types packets produced beforeCache
  = match processAll normalize types packets [] beforeCache with
    | Ok (new, beforeCache') => Ok (produced ++ new, beforeCache')
    | Panic msg => Panic msg
    end.
Proof.
  revert produced beforeCache. induction packets as [|p rest IH]; intros produced c; cbn.
  - by rewrite app_nil_r.
  - destruct (processPacket normalize types p c) as [[series c1]|]; [|done].
    rewrite (IH (produced ++ series)), (IH series).
    destruct (processAll normalize types rest [] c1) as [[new c2]|]; [|done].
    by rewrite app_assoc.
Qed.

Lemma processPacket_cacheBounded normalize types packet beforeCache out beforeCache' :
  in_int64 (collectd.UnixNano packet) →
  cacheBounded beforeCache →
  processPacket normalize types packet beforeCache = Ok (out, beforeCache') →
  cacheBounded beforeCache'.
Proof.
  intros Hn Hc. unfold processPacket.
  apply (processLoop_invariant normalize types packet (λ _ c, cacheBounded c)); [|done].
  intros i acc c o c' _ Hb Hi.
  apply processValue_inv in Hi as [[_ ?]|(tn & v & d & _ & _ & _ & _ & Hr)]; [by simplify_eq|].
  unfold roundResult in Hr. destruct (normalizationPath normalize d); simplify_eq; [|done].
  intros k e. rewrite lookup_insert. case_decide; [|by apply Hb].
  intros [= <-]. cbn. unfold timestampOf. rewrite div64_millis by done.
  by apply quot_millis_bound.
Qed.

(** ** Timestamps in the cache *)

(** X10: as long as the packets carry times that fit an [int64] of nanoseconds,
    every timestamp in the cache stays within 2^44 milliseconds of zero,
    from the empty cache of start-up on. *)
Theorem X10_cache_timestamps_bounded normalize types st channel st' :
  (∀ a, a ∈ channel → in_int64 (collectd.UnixNano (packet a))) →
  cacheBounded (cache st) →
  mainLoop normalize types st channel = Ok st' →
  cacheBounded (cache st').
Proof.
  intros Hch.
  apply (mainLoop_invariant normalize types (λ s, cacheBounded (cache s))).
  intros s a s' Ha Hb Hstep.
  apply mainStep_inv in Hstep as (series & Hp & _).
  eapply processPacket_cacheBounded; [by apply Hch|exact Hb|exact Hp].
Qed.

Lemma X10_cache_timestamps_bounded_witness :
  ∃ st', mainLoop true typesdb initialState
           [arrival (sample collectd.TypeCounter 100 0) 1000] = Ok st'
         ∧ cacheBounded (cache st').
Proof.
  eexists. split; [vm_compute; reflexivity|].
  apply (X10_cache_timestamps_bounded true typesdb initialState
           [arrival (sample collectd.TypeCounter 100 0) 1000]).
  - intros a Ha. apply list_elem_of_singleton in Ha as ->. cbn. unfold in_int64. lia.
  - intros k e Hk. cbn in Hk. by rewrite lookup_empty in Hk.
  - vm_compute. reflexivity.
Defined.

(** X11: under that bound the elapsed time of line 184 and its division by
    1000 of line 185 are the mathematical ones: the [int64] arithmetic
    does not wrap around. *)
Theorem X11_elapsed_time_exact packet beforeCache k before :
  in_int64 (collectd.UnixNano packet) →
  cacheBounded beforeCache →
  beforeCache !! k = Some before →
  sub64 (timestampOf packet) (Timestamp before) = timestampOf packet - Timestamp before
  ∧ div64 (sub64 (timestampOf packet) (Timestamp before)) 1000
    = (timestampOf packet - Timestamp before) ÷ 1000.
Proof.
  intros Hn Hc Hk. specialize (Hc k before Hk).
  pose proof (quot_millis_bound _ Hn) as Hq.
  unfold timestampOf. rewrite div64_millis by done.
  set (ts := collectd.UnixNano packet ÷ 1000000) in *.
  assert (- 2 ^ 45 < ts - Timestamp before < 2 ^ 45) as Hd.
  { change (2 ^ 45) with (2 * 2 ^ 44). lia. }
  assert (sub64 ts (Timestamp before) = ts - Timestamp before) as ->.
  { unfold sub64. apply wrap64_in_range. unfold in_int64.
    change (2 ^ 63) with (262144 * 2 ^ 45). lia. }
  split; [done|].
  unfold div64. apply wrap64_in_range. unfold in_int64.
  assert (- 2 ^ 45 <= (ts - Timestamp before) ÷ 1000 <= 2 ^ 45) as Hq'.
  { split.
    - apply Z.le_trans with (m := (- 2 ^ 45) ÷ 1000); [by vm_compute|].
      apply Z.quot_le_mono; lia.
    - apply Z.le_trans with (m := (2 ^ 45) ÷ 1000); [|by vm_compute].
      apply Z.quot_le_mono; lia. }
  change (2 ^ 63) with (262144 * 2 ^ 45). lia.
Qed.

Lemma X11_elapsed_time_exact_witness :
  sub64 (timestampOf (sample collectd.TypeCounter 250 1500000000)) 0 = 1500 - 0
  ∧ div64 (sub64 (timestampOf (sample collectd.TypeCounter 250 1500000000)) 0) 1000
    = (1500 - 0) ÷ 1000.
Proof.
  apply (X11_elapsed_time_exact (sample collectd.TypeCounter 250 1500000000)
           {[ sampleKey := {| Timestamp := 0; Value := 100 |} ]}
           sampleKey {| Timestamp := 0; Value := 100 |}).
  - cbn. unfold in_int64. lia.
  - intros k e Hk. apply lookup_singleton_Some in Hk as [_ <-]. cbn. lia.
  - reflexivity.
Defined.

(** ** Batches *)

(** X12: after every iteration of the loop fewer than fifty series are waiting,
    whatever was waiting before. *)
Theorem X12_pending_batch_below_limit normalize types st a st' :
  mainStep normalize types st a = Ok st' →
  (length (seriesGroup st') < influxWriteLimit)%nat.
Proof.
  intros H. apply mainStep_inv in H as (series & _ & [H|[H|H]]).
  - destruct H as (_ & -> & _ & Hlen). exact Hlen.
  - destruct H as (_ & -> & _). cbn. unfold influxWriteLimit. lia.
  - destruct H as (_ & -> & _). cbn. unfold influxWriteLimit. lia.
Qed.

Lemma X12_pending_batch_below_limit_witness :
  ∃ st', mainLoop true typesdb initialState (burst 1) = Ok st'
         ∧ (length (seriesGroup st') < influxWriteLimit)%nat.
Proof.
  eexists. split; [vm_compute; reflexivity|].
  apply (X12_pending_batch_below_limit true typesdb initialState
           (arrival (sample collectd.TypeGauge 42.5 0) 200000000)).
  vm_compute. reflexivity.
Defined.

(** X13: no writer is ever started with an empty batch. *)
Theorem X13_no_empty_batch_written normalize types st channel st' :
  (∀ batch, batch ∈ writers st → batch ≠ []) →
  mainLoop normalize types st channel = Ok st' →
  ∀ batch, batch ∈ writers st' → batch ≠ [].
Proof.
  apply (mainLoop_invariant normalize types (λ s, ∀ batch, batch ∈ writers s → batch ≠ [])).
  intros s a s' _ Hs Hstep batch Hb.
  apply mainStep_inv in Hstep as (series & _ & [H|[H|H]]).
  - destruct H as (_ & _ & Hw & _). rewrite Hw in Hb. by apply Hs.
  - destruct H as (_ & _ & Hw & Hlen). rewrite Hw in Hb.
    apply elem_of_app in Hb as [Hb|Hb]; [by apply Hs|].
    apply list_elem_of_singleton in Hb as ->. intros He. rewrite He in Hlen. cbn in Hlen. lia.
  - destruct H as (_ & _ & Hw & _). rewrite Hw in Hb. by apply Hs.
Qed.

Lemma X13_no_empty_batch_written_witness :
  ∃ st', mainLoop true typesdb initialState (burst 60) = Ok st'
         ∧ ∀ batch, batch ∈ writers st' → batch ≠ [].
Proof.
  eexists. split; [vm_compute; reflexivity|].
  apply (X13_no_empty_batch_written true typesdb initialState (burst 60)).
  - intros batch Hb. cbn in Hb. by apply elem_of_nil in Hb.
  - vm_compute. reflexivity.
Defined.

(** X14: batching loses, repeats and reorders nothing, and the clock plays no
    part in what is produced: the batches given to writers, followed by
    the waiting batch, are the series there were at the start followed by
    the series of the packets in the order of arrival; and the cache is the
    one that processing the packets in order gives. *)
Theorem X14_batching_conserves_series normalize types st channel st' :
  mainLoop normalize types st channel = Ok st' →
  ∃ produced,
    processAll normalize types (packet <$> channel) [] (cache st) = Ok (produced, cache st')
    ∧ concat (writers st') ++ seriesGroup st'
      = concat (writers st) ++ seriesGroup st ++ produced.
Proof.
  revert st. induction channel as [|a rest IH]; intros st Hrun; cbn in Hrun.
  - injection Hrun as <-. exists []. cbn. by rewrite app_nil_r.
  - destruct (mainStep normalize types st a) as [st1|] eqn:Ha; [|done].
    apply mainStep_inv in Ha as (series & Hp & Hcase).
    destruct (IH st1 Hrun) as (produced & Hall & Hcons).
    exists (series ++ produced). split.
    + cbn. rewrite Hp. cbn. rewrite processAll_acc, Hall. done.
    + rewrite Hcons.
      destruct Hcase as [H|[H|H]].
      * destruct H as (_ & -> & -> & _). by rewrite <- !app_assoc.
      * destruct H as (_ & -> & -> & _).
        rewrite concat_app. cbn. by rewrite !app_nil_r, <- !app_assoc.
      * destruct H as (_ & -> & -> & He).
        cbn. rewrite (app_assoc (seriesGroup st)), He. done.
Qed.

Lemma X14_batching_conserves_series_witness :
  ∃ st' produced,
    mainLoop true typesdb initialState (burst 60) = Ok st'
    ∧ processAll true typesdb (packet <$> burst 60) [] ∅ = Ok (produced, cache st')
    ∧ concat (writers st') ++ seriesGroup st' = produced.
Proof.
  eexists.
  destruct (X14_batching_conserves_series true typesdb initialState (burst 60) _
              ltac:(vm_compute; reflexivity)) as (produced & H1 & H2).
  exists produced. split; [vm_compute; reflexivity|]. split; [exact H1|exact H2].
Defined.

(** X15: whether the loop panics depends on the packets and the cache alone,
    never on the clock or on what is waiting in the batch. *)
Theorem X15_panic_independent_of_timing normalize types st channel :
  is_Ok (mainLoop normalize types st channel)
  ↔ is_Ok (processAll normalize types (packet <$> channel) [] (cache st)).
Proof.
  revert st. induction channel as [|a rest IH]; intros st; cbn; [done|].
  destruct (mainStep normalize types st a) as [st1|] eqn:Ha.
  - apply mainStep_inv in Ha as (series & Hp & _). rewrite Hp.
    rewrite processAll_acc, IH.
    by destruct (processAll _ _ _ _ _) as [[? ?]|].
  - unfold mainStep in Ha.
    destruct (processPacket normalize types (packet a) (cache st)) as [[series c']|]; [|done].
    cbn [mbind result_bind] in Ha.
    destruct (_ && _) in Ha; [done|]. by destruct (_ <? _)%nat in Ha.
Qed.

(** X16: an iteration starts at most one writer, and the batch it gets is not
    empty and has fewer series than the limit plus the number of values of
    the packet just processed, if fewer than the limit were waiting: the
    limit of fifty triggers the flush, and a batch can be larger. *)
Theorem X16_written_batch_size normalize types st a st' :
  (length (seriesGroup st) < influxWriteLimit)%nat →
  mainStep normalize types st a = Ok st' →
  writers st' = writers st
  ∨ ∃ batch, writers st' = writers st ++ [batch]
             ∧ (0 < length batch
                < influxWriteLimit + length (collectd.ValueNames (packet a)))%nat.
Proof.
  intros Hlen H. apply mainStep_inv in H as (series & Hp & [H|[H|H]]).
  - left. by destruct H as (_ & _ & -> & _).
  - right. destruct H as (_ & _ & -> & Hpos). eexists. split; [done|].
    split; [done|]. unfold processPacket in Hp. apply processLoop_length in Hp.
    rewrite length_seq in Hp. cbn in Hp. rewrite length_app. lia.
  - left. by destruct H as (_ & _ & -> & _).
Qed.

Lemma X16_written_batch_size_witness :
  ∃ st batch,
    writers st = [] ++ [batch]
    ∧ (0 < length batch < influxWriteLimit + 2)%nat.
Proof.
  destruct (X16_written_batch_size true typesdb
              {| timer := 0; seriesGroup := replicate 49 (samplePoint 0 1);
                 cache := ∅; writers := [] |}
              (arrival (octets collectd.TypeGauge 1 2 0) 5)
              {| timer := 5; seriesGroup := []; cache := ∅;
                 writers := [replicate 49 (samplePoint 0 1)
                             ++ [mkSeries "interface.if_octets-eth0" 0 1 "web_example_org";
                                 mkSeries "interface.if_octets-eth0" 0 2 "web_example_org"]] |})
    as [H|(batch & Hw & Hb)].
  - cbn. unfold influxWriteLimit. lia.
  - vm_compute. reflexivity.
  - vm_compute in H. discriminate.
  - eexists _, batch. split; [exact Hw|exact Hb].
Defined.

(** ** Values that are not numbers, and short slices *)

(** X17: a raw value that is not a number costs the next point of the series
    as well: it is stored in the cache all the same, so the observation
    that follows it finds no valid entry, is not sent, and becomes the new
    entry. *)
Theorem X17_nan_drops_next_point normalize types beforeCache
    p1 i1 typeName1 value1 dataType1 p2 i2 typeName2 value2 dataType2 :
  normalizationPath normalize dataType1 = true →
  unknownShape types p1 = false →
  typeNameOf p1 (types !! collectd.Type_ p1) i1 = Ok typeName1 →
  collectd.ValueNumbers p1 !! i1 = Some value1 →
  collectd.DataTypes p1 !! i1 = Some dataType1 →
  normalizationPath normalize dataType2 = true →
  unknownShape types p2 = false →
  typeNameOf p2 (types !! collectd.Type_ p2) i2 = Ok typeName2 →
  collectd.ValueNumbers p2 !! i2 = Some value2 →
  collectd.DataTypes p2 !! i2 = Some dataType2 →
  cacheKeyOf p1 typeName1 = cacheKeyOf p2 typeName2 →
  IsNaN value1 = true →
  ∃ o1 c1,
    processValue normalize types p1 i1 beforeCache = Ok (o1, c1)
    ∧ processValue normalize types p2 i2 c1
      = Ok (None,
            <[cacheKeyOf p2 typeName2 :=
                {| Timestamp := timestampOf p2; Value := value2 |}]> beforeCache).
Proof.
  intros Hp1 Hu1 Ht1 Hv1 Hd1 Hp2 Hu2 Ht2 Hv2 Hd2 Hkey Hn.
  rewrite (processValue_run _ _ _ _ _ typeName1 value1 dataType1) by done.
  unfold roundResult at 1. rewrite Hp1. cbn zeta.
  eexists _, _. split; [done|].
  rewrite (processValue_run _ _ _ _ _ typeName2 value2 dataType2) by done.
  unfold roundResult. rewrite Hp2. cbn zeta.
  rewrite Hkey, lookup_insert_eq, insert_insert_eq.
  unfold normalizeValue. cbn [Value Timestamp]. by rewrite Hn.
Qed.

Lemma X17_nan_drops_next_point_witness :
  ∃ o1 c1,
    processValue true typesdb (sample collectd.TypeCounter nan 0) 0
      {[ sampleKey := {| Timestamp := 0; Value := 5 |} ]} = Ok (o1, c1)
    ∧ processValue true typesdb (sample collectd.TypeCounter 150 1000000000) 0 c1
      = Ok (None,
            <[sampleKey := {| Timestamp := 1000; Value := 150 |}]>
              {[ sampleKey := {| Timestamp := 0; Value := 5 |} ]}).
Proof.
  destruct (X17_nan_drops_next_point true typesdb
              {[ sampleKey := {| Timestamp := 0; Value := 5 |} ]}
              (sample collectd.TypeCounter nan 0) 0 "cpu-value" nan collectd.TypeCounter
              (sample collectd.TypeCounter 150 1000000000) 0 "cpu-value" 150
              collectd.TypeCounter
              eq_refl eq_refl eq_refl eq_refl eq_refl eq_refl eq_refl eq_refl eq_refl eq_refl
              eq_refl eq_refl)
    as (o1 & c1 & H1 & H2).
  exists o1, c1. split; [exact H1|exact H2].
Defined.

(** X18: When [processPacket] panics.  A packet without values, or of an
    unknown type and without type-instance, never does.  Any other packet
    is processed without panic exactly when its labels are in range and the
    decoder gave at least as many numbers and as many kinds as value names:
    the error of [ValueNumbers] is dropped at line 143, and the reads
    [values[i]] and [DataTypes[i]] of lines 176 and 177 are not guarded. *)
Theorem X18_panic_exactly_on_short_slices normalize types packet beforeCache :
  is_Ok (processPacket normalize types packet beforeCache)
  ↔ collectd.ValueNames packet = []
    ∨ unknownShape types packet = true
    ∨ (labelsInRange types packet
       ∧ (length (collectd.ValueNames packet) <= length (collectd.ValueNumbers packet))%nat
       ∧ (length (collectd.ValueNames packet) <= length (collectd.DataTypes packet))%nat).
Proof.
  unfold processPacket. rewrite processLoop_is_Ok.
  unfold labelsInRange. setoid_rewrite elem_of_seq. setoid_rewrite typeNameOf_is_Ok.
  destruct (collectd.ValueNames packet) as [|name names] eqn:Hn.
  { split; [by left|]. intros _ i [_ Hi]. cbn in Hi. lia. }
  set (n := length (name :: names)).
  assert (0 < n)%nat as Hpos by (cbn; lia).
  destruct (unknownShape types packet) eqn:Hu.
  { split; [by right; left|]. intros _ i _. by left. }
  split.
  - intros H. right. right. split; [|split].
    + intros Hi t Ht.
      destruct (decide (n <= length t)%nat) as [|Hgt]; [done|].
      destruct (H (length t)) as [?|[Hl _]]; [lia|done|].
      specialize (Hl Hi t Ht). lia.
    + destruct (H (n - 1)%nat) as [?|(_ & Hv & _)]; [lia|done|lia].
    + destruct (H (n - 1)%nat) as [?|(_ & _ & Hd)]; [lia|done|lia].
  - intros [[=]|[[=]|(Hl & Hv & Hd)]] i [_ Hi]. right. split; [|lia].
    intros He t Ht. specialize (Hl He t Ht). lia.
Qed.
